(** * Lab generation pipeline: a shallow embedding and its properties

    The development follows the Python sources of [Lab_generate]:
    - [models/lab_models.py]: the pydantic models of a lab;
    - [generate_all_labs.py]: the template-based generator;
    - [services/lab_generation_service.py]: the prompted generator;
    - [utils/file_utils.py]: sanitisation, the concept reader and the
      output organiser.

    Python [str] values are modelled as Rocq strings read as sequences of
    ASCII characters (code points above 127 are outside the model),
    Python [int] as [Z], [Optional[T]] as [option T], a raised exception
    as the left summand of [result], and a [dict] with string keys as an
    association list in insertion order.  Console output is left out; a
    file is the JSON document it holds. *)

From Stdlib Require Import ZArith List String Ascii Bool Arith Lia.
Import ListNotations.
Open Scope string_scope.

(** ** Exceptions and the error monad *)

(** A raised Python exception: its class and [str(e)]. *)
Record Exception : Type := mkException {
  exc_class : string;
  exc_str : string
}.

Definition result (A : Type) : Type := (Exception + A)%type.

Definition ret {A : Type} (a : A) : result A := inr a.
Definition raise {A : Type} (e : Exception) : result A := inl e.

Definition bind {A B : Type} (m : result A) (k : A -> result B) : result B :=
  match m with
  | inl e => inl e
  | inr a => k a
  end.

Notation "x <- m ;; k" := (bind m (fun x => k))
  (at level 61, m at next level, right associativity).

(** [try: body except Exception as e: handler(e)]. *)
Definition try_except {A : Type} (body : result A) (handler : Exception -> result A)
  : result A :=
  match body with
  | inl e => handler e
  | inr a => inr a
  end.

Fixpoint mapM {A B : Type} (f : A -> result B) (l : list A) : result (list B) :=
  match l with
  | [] => ret []
  | a :: l' => b <- f a ;; bs <- mapM f l' ;; ret (b :: bs)
  end.

(** ** Python string operations (ASCII) *)

Module PyStr.

Definition code (c : ascii) : nat := nat_of_ascii c.

Definition between (lo hi n : nat) : bool := (lo <=? n)%nat && (n <=? hi)%nat.

Definition is_upper (c : ascii) : bool := between 65 90 (code c).
Definition is_lower (c : ascii) : bool := between 97 122 (code c).
Definition is_digit (c : ascii) : bool := between 48 57 (code c).
Definition is_cased (c : ascii) : bool := is_upper c || is_lower c.

Definition lower_char (c : ascii) : ascii :=
  if is_upper c then ascii_of_nat (code c + 32) else c.
Definition upper_char (c : ascii) : ascii :=
  if is_lower c then ascii_of_nat (code c - 32) else c.

(** [s.lower()] *)
Fixpoint lower (s : string) : string :=
  match s with
  | EmptyString => EmptyString
  | String c s' => String (lower_char c) (lower s')
  end.

(** [s.title()]: a cased character is upper-cased after an uncased one
    (or at the start) and lower-cased after a cased one. *)
Fixpoint title_from (previous_is_cased : bool) (s : string) : string :=
  match s with
  | EmptyString => EmptyString
  | String c s' =>
      String (if previous_is_cased then lower_char c else upper_char c)
             (title_from (is_cased c) s')
  end.
Definition title (s : string) : string := title_from false s.

(** [s.startswith(p)] *)
Fixpoint startswith (p s : string) : bool :=
  match p, s with
  | EmptyString, _ => true
  | String a p', String b s' => Ascii.eqb a b && startswith p' s'
  | String _ _, EmptyString => false
  end.

(** [needle in hay] *)
Fixpoint contains (needle hay : string) : bool :=
  startswith needle hay ||
  match hay with
  | EmptyString => false
  | String _ hay' => contains needle hay'
  end.

(** [len(s)] *)
Definition len (s : string) : Z := Z.of_nat (String.length s).

(** Truth value of an [Optional[str]]: [None] and [''] are falsy. *)
Definition truthy (o : option string) : bool :=
  match o with
  | None => false
  | Some EmptyString => false
  | Some (String _ _) => true
  end.

(** [c * n] for a one-character string. *)
Fixpoint repeat_char (c : ascii) (n : nat) : string :=
  match n with
  | O => EmptyString
  | S n' => String c (repeat_char c n')
  end.

End PyStr.

(** ** JSON values and Python dictionaries *)

(** Values that [json.load] returns and [json.dump] accepts.  Numbers are
    integers in the model. *)
#[warnings="-register-all"]
Inductive json : Type :=
| JNull
| JBool (b : bool)
| JInt (z : Z)
| JStr (s : string)
| JArr (items : list json)
| JObj (fields : list (string * json)).

(** A [dict] with string keys: its items in insertion order. *)
Definition dict : Type := list (string * json).

(** [d[key]] when present. *)
Fixpoint dict_lookup (key : string) (d : dict) : option json :=
  match d with
  | [] => None
  | (k, v) :: d' => if String.eqb k key then Some v else dict_lookup key d'
  end.

(** [d.get(key, default)] *)
Definition dict_get (d : dict) (key : string) (default : json) : json :=
  match dict_lookup key d with
  | Some v => v
  | None => default
  end.

Definition dict_keys (d : dict) : list string := map fst d.

(** ** models/lab_models.py *)

Module Models.

Record LabExercise : Type := mkLabExercise {
  type : string;
  hints : Z;
  description : option string;
  starter_code : option string;
  solution : option string;
  test_cases : option (list dict)
}.

(** [title] and [difficulty] of a section are [section_title] and
    [section_difficulty] here, the plain names being those of the lab. *)
Record LabSection : Type := mkLabSection {
  concept : string;
  section_title : string;
  section_difficulty : string;
  scaffolding_level : string;
  exercises : list LabExercise;
  learning_objectives : option (list string);
  background : option string
}.

Record PersonalizedLab : Type := mkPersonalizedLab {
  title : string;
  topic : string;
  difficulty : string;
  estimated_time : Z;
  sections : list LabSection;
  prerequisites : option (list string);
  technologies : option (list string);
  personalization_context : option string
}.

Record LabGenerationMetadata : Type := mkLabGenerationMetadata {
  concept_name : string;
  concept_definition : string;
  source_topic : string;
  model_used : option string;
  personalization_applied : bool
}.

Record CompleteLabResult : Type := mkCompleteLabResult {
  lab : PersonalizedLab;
  metadata : LabGenerationMetadata;
  success : bool;
  error : option string
}.

(** *** Field constraints *)

Definition mem (s : string) (allowed : list string) : bool :=
  existsb (String.eqb s) allowed.

Definition exercise_types : list string := ["guided"; "challenge"; "exploration"].
Definition difficulty_levels : list string := ["easy"; "medium"; "hard"].
Definition scaffolding_levels : list string := ["low"; "medium"; "high"].

(** [Literal[...]] on [type], [ge=0], [le=5] on [hints]. *)
Definition exercise_ok (e : LabExercise) : bool :=
  mem (type e) exercise_types && (0 <=? hints e)%Z && (hints e <=? 5)%Z.

(** The two [Literal[...]] fields and [min_length=1] on [exercises]. *)
Definition section_fields_ok (s : LabSection) : bool :=
  mem (section_difficulty s) difficulty_levels
  && mem (scaffolding_level s) scaffolding_levels
  && (1 <=? List.length (exercises s))%nat.

(** [Literal[...]] on [difficulty], [ge=15], [le=180] on
    [estimated_time], [min_length=1] on [sections]. *)
Definition lab_fields_ok (l : PersonalizedLab) : bool :=
  mem (difficulty l) difficulty_levels
  && (15 <=? estimated_time l)%Z && (estimated_time l <=? 180)%Z
  && (1 <=? List.length (sections l))%nat.

(** A section all of whose parts pass validation, and likewise a lab. *)
Definition section_ok (s : LabSection) : bool :=
  section_fields_ok s && forallb exercise_ok (exercises s).

Definition lab_ok (l : PersonalizedLab) : bool :=
  lab_fields_ok l && forallb section_ok (sections l).

Definition ValidationError (model : string) : Exception :=
  mkException "ValidationError" ("1 validation error for " ++ model).

(** *** Keyword constructors: pydantic validates on construction.
    Nested model instances were validated when they were built and are
    taken as they are. *)

Definition LabExercise_init (e : LabExercise) : result LabExercise :=
  if exercise_ok e then ret e else raise (ValidationError "LabExercise").

Definition LabSection_init (s : LabSection) : result LabSection :=
  if section_fields_ok s then ret s else raise (ValidationError "LabSection").

Definition PersonalizedLab_init (l : PersonalizedLab) : result PersonalizedLab :=
  if lab_fields_ok l then ret l else raise (ValidationError "PersonalizedLab").

(** The metadata and result models carry no constraint beyond the types
    of their fields. *)
Definition LabGenerationMetadata_init (m : LabGenerationMetadata)
  : result LabGenerationMetadata := ret m.

Definition CompleteLabResult_init (r : CompleteLabResult)
  : result CompleteLabResult := ret r.

End Models.

(** ** pydantic: [model_dump] and validation of a keyword dictionary *)

Module Pydantic.
Import Models.

(** *** model_dump *)

Definition dump_optional {A : Type} (f : A -> json) (o : option A) : json :=
  match o with
  | Some a => f a
  | None => JNull
  end.

Definition dump_strs (l : list string) : json := JArr (map JStr l).
Definition dump_dicts (l : list dict) : json := JArr (map JObj l).

Definition LabExercise_model_dump (e : LabExercise) : dict :=
  [ ("type", JStr (type e));
    ("hints", JInt (hints e));
    ("description", dump_optional JStr (description e));
    ("starter_code", dump_optional JStr (starter_code e));
    ("solution", dump_optional JStr (solution e));
    ("test_cases", dump_optional dump_dicts (test_cases e)) ].

Definition LabSection_model_dump (s : LabSection) : dict :=
  [ ("concept", JStr (concept s));
    ("title", JStr (section_title s));
    ("difficulty", JStr (section_difficulty s));
    ("scaffolding_level", JStr (scaffolding_level s));
    ("exercises", JArr (map (fun e => JObj (LabExercise_model_dump e)) (exercises s)));
    ("learning_objectives", dump_optional dump_strs (learning_objectives s));
    ("background", dump_optional JStr (background s)) ].

Definition PersonalizedLab_model_dump (l : PersonalizedLab) : dict :=
  [ ("title", JStr (title l));
    ("topic", JStr (topic l));
    ("difficulty", JStr (difficulty l));
    ("estimated_time", JInt (estimated_time l));
    ("sections", JArr (map (fun s => JObj (LabSection_model_dump s)) (sections l)));
    ("prerequisites", dump_optional dump_strs (prerequisites l));
    ("technologies", dump_optional dump_strs (technologies l));
    ("personalization_context", dump_optional JStr (personalization_context l)) ].

Definition LabGenerationMetadata_model_dump (m : LabGenerationMetadata) : dict :=
  [ ("concept_name", JStr (concept_name m));
    ("concept_definition", JStr (concept_definition m));
    ("source_topic", JStr (source_topic m));
    ("model_used", dump_optional JStr (model_used m));
    ("personalization_applied", JBool (personalization_applied m)) ].

(** *** Validation of field values.  Each field accepts the JSON type
    of its annotation; the conversions of pydantic's lax mode (a
    numeric string for an [int] field, say) are not modelled. *)

Definition as_str (model : string) (v : json) : result string :=
  match v with
  | JStr s => ret s
  | _ => raise (ValidationError model)
  end.

Definition as_int (model : string) (v : json) : result Z :=
  match v with
  | JInt z => ret z
  | _ => raise (ValidationError model)
  end.

Definition as_dict (model : string) (v : json) : result dict :=
  match v with
  | JObj d => ret d
  | _ => raise (ValidationError model)
  end.

Definition as_list {A : Type} (model : string) (item : json -> result A) (v : json)
  : result (list A) :=
  match v with
  | JArr items => mapM item items
  | _ => raise (ValidationError model)
  end.

(** A field without default: the key must be present. *)
Definition required {A : Type} (model : string) (d : dict) (key : string)
           (item : json -> result A) : result A :=
  match dict_lookup key d with
  | Some v => item v
  | None => raise (ValidationError model)
  end.

(** An [Optional[...]] field with [default=None]. *)
Definition optional {A : Type} (d : dict) (key : string)
           (item : json -> result A) : result (option A) :=
  match dict_lookup key d with
  | None => ret None
  | Some JNull => ret None
  | Some v => a <- item v ;; ret (Some a)
  end.

Definition LabExercise_validate (d : dict) : result LabExercise :=
  let m := "LabExercise" in
  type <- required m d "type" (as_str m) ;;
  hints <- required m d "hints" (as_int m) ;;
  description <- optional d "description" (as_str m) ;;
  starter_code <- optional d "starter_code" (as_str m) ;;
  solution <- optional d "solution" (as_str m) ;;
  test_cases <- optional d "test_cases" (as_list m (as_dict m)) ;;
  LabExercise_init
    (mkLabExercise type hints description starter_code solution test_cases).

Definition LabSection_validate (d : dict) : result LabSection :=
  let m := "LabSection" in
  concept <- required m d "concept" (as_str m) ;;
  title <- required m d "title" (as_str m) ;;
  difficulty <- required m d "difficulty" (as_str m) ;;
  scaffolding_level <- required m d "scaffolding_level" (as_str m) ;;
  exercises <- required m d "exercises"
    (as_list m (fun v => e <- as_dict m v ;; LabExercise_validate e)) ;;
  learning_objectives <- optional d "learning_objectives" (as_list m (as_str m)) ;;
  background <- optional d "background" (as_str m) ;;
  LabSection_init
    (mkLabSection concept title difficulty scaffolding_level exercises
                  learning_objectives background).

(** [PersonalizedLab] called on the keyword dictionary [d]. *)
Definition PersonalizedLab_validate (d : dict) : result PersonalizedLab :=
  let m := "PersonalizedLab" in
  title <- required m d "title" (as_str m) ;;
  topic <- required m d "topic" (as_str m) ;;
  difficulty <- required m d "difficulty" (as_str m) ;;
  estimated_time <- required m d "estimated_time" (as_int m) ;;
  sections <- required m d "sections"
    (as_list m (fun v => s <- as_dict m v ;; LabSection_validate s)) ;;
  prerequisites <- optional d "prerequisites" (as_list m (as_str m)) ;;
  technologies <- optional d "technologies" (as_list m (as_str m)) ;;
  personalization_context <- optional d "personalization_context" (as_str m) ;;
  PersonalizedLab_init
    (mkPersonalizedLab title topic difficulty estimated_time sections
                       prerequisites technologies personalization_context).

End Pydantic.

(** ** generate_all_labs.py: the template generator *)

Module TemplateLabGenerator.
Import Models.

(** [self.difficulty_map], in insertion order. *)
Definition difficulty_map : list (string * string) :=
  [ ("database", "medium");
    ("algorithm", "hard");
    ("system", "hard");
    ("data", "easy");
    ("processing", "medium");
    ("analysis", "medium");
    ("storage", "easy");
    ("framework", "medium");
    ("model", "hard");
    ("technique", "medium") ].

(** The [for keyword, difficulty in ...items()] loop with its early
    [return]; [None] when the loop falls through. *)
Fixpoint scan_keywords (items : list (string * string))
         (concept_lower definition_lower : string) : option string :=
  match items with
  | [] => None
  | (keyword, difficulty) :: rest =>
      if PyStr.contains keyword concept_lower
         || PyStr.contains keyword definition_lower
      then Some difficulty
      else scan_keywords rest concept_lower definition_lower
  end.

Definition _determine_difficulty (concept_name definition : string) : string :=
  let concept_lower := PyStr.lower concept_name in
  let definition_lower := PyStr.lower definition in
  match scan_keywords difficulty_map concept_lower definition_lower with
  | Some difficulty => difficulty
  | None =>
      if (200 <? PyStr.len definition)%Z then "hard"
      else if (100 <? PyStr.len definition)%Z then "medium"
      else "easy"
  end.

(** [base_time.get(difficulty, 45) + (num_sections - 1) * 15] *)
Definition base_time (difficulty : string) : Z :=
  if String.eqb difficulty "easy" then 30
  else if String.eqb difficulty "medium" then 45
  else if String.eqb difficulty "hard" then 60
  else 45.

Definition _estimate_time (difficulty : string) (num_sections : Z) : Z :=
  (base_time difficulty + (num_sections - 1) * 15)%Z.

Definition newline : string := String (ascii_of_nat 10) EmptyString.

Definition _create_exercises (concept_name difficulty : string)
           (personalization_context : option string) : result (list LabExercise) :=
  (* Guided exercise *)
  guided <- LabExercise_init {|
    type := "guided";
    hints := if String.eqb difficulty "easy" then 3%Z else 2%Z;
    description := Some ("Implement a basic example demonstrating " ++ concept_name);
    starter_code := Some ("# TODO: Implement " ++ concept_name ++ newline
                          ++ "# Your code here" ++ newline);
    solution := Some ("# Solution for " ++ concept_name ++ newline
                      ++ "# Implementation details" ++ newline);
    test_cases := Some [ [ ("input", JStr "test_input");
                           ("expected", JStr "expected_output") ] ]
  |} ;;
  let exercises := [guided] in
  (* Challenge exercise for medium/hard *)
  if mem difficulty ["medium"; "hard"] then
    challenge <- LabExercise_init {|
      type := "challenge";
      hints := 1%Z;
      description := Some ("Apply " ++ concept_name ++ " to solve a real-world problem");
      starter_code := Some ("# Challenge: Advanced " ++ concept_name ++ newline);
      solution := Some ("# Advanced solution" ++ newline);
      test_cases := Some []
    |} ;;
    ret (exercises ++ [challenge])%list
  else
    ret exercises.

Definition _create_minimal_lab (concept_name topic : string)
  : result PersonalizedLab :=
  exercise <- LabExercise_init {|
    type := "guided";
    hints := 3%Z;
    description := Some ("Explore " ++ concept_name);
    starter_code := Some ("# TODO: Implement" ++ newline);
    solution := Some ("# Solution" ++ newline);
    test_cases := Some []
  |} ;;
  section <- LabSection_init {|
    concept := concept_name;
    section_title := "Learning " ++ concept_name;
    section_difficulty := "medium";
    scaffolding_level := "medium";
    exercises := [exercise];
    learning_objectives := Some ["Understand " ++ concept_name];
    background := Some ("This lab introduces " ++ concept_name)
  |} ;;
  PersonalizedLab_init {|
    title := "Introduction to " ++ concept_name;
    topic := topic;
    difficulty := "medium";
    estimated_time := 45%Z;
    sections := [section];
    prerequisites := Some ["Basic programming"];
    technologies := Some ["Python"];
    personalization_context := None
  |}.

(** The body of the [try] block of [generate_lab]. *)
Definition generate_lab_try (concept_name concept_definition topic : string)
           (personalization_context : option string) : result CompleteLabResult :=
  (* Determine difficulty *)
  let difficulty := _determine_difficulty concept_name concept_definition in
  (* Create personalized title *)
  let title :=
    match personalization_context with
    | Some ctx =>
        if PyStr.truthy personalization_context
        then "Hands-On Lab: " ++ concept_name ++ " in " ++ PyStr.title ctx
        else "Hands-On Lab: " ++ concept_name
    | None => "Hands-On Lab: " ++ concept_name
    end in
  (* Create exercises *)
  exercises <- _create_exercises concept_name difficulty personalization_context ;;
  (* Create section *)
  section <- LabSection_init {|
    concept := concept_name;
    section_title := "Exploring " ++ concept_name;
    section_difficulty := difficulty;
    scaffolding_level := "medium";
    exercises := exercises;
    learning_objectives := Some [
      "Understand the fundamentals of " ++ concept_name;
      "Apply " ++ concept_name ++ " in practical scenarios";
      "Implement solutions using " ++ concept_name ];
    background := Some concept_definition
  |} ;;
  (* Create lab *)
  lab <- PersonalizedLab_init {|
    Models.title := title;
    Models.topic := topic;
    Models.difficulty := difficulty;
    estimated_time := _estimate_time difficulty 1;
    sections := [section];
    prerequisites := Some ["Basic programming knowledge"; "Understanding of databases"];
    technologies := Some ["Python"; "Jupyter Notebook"];
    Models.personalization_context := personalization_context
  |} ;;
  (* Create metadata *)
  metadata <- LabGenerationMetadata_init {|
    Models.concept_name := concept_name;
    Models.concept_definition := concept_definition;
    source_topic := topic;
    model_used := Some "template";
    personalization_applied :=
      match personalization_context with Some _ => true | None => false end
  |} ;;
  CompleteLabResult_init {|
    lab := lab;
    metadata := metadata;
    success := true;
    error := None
  |}.

(** The [except Exception as e] handler of [generate_lab]. *)
Definition generate_lab_except (concept_name concept_definition topic : string)
           (e : Exception) : result CompleteLabResult :=
  lab <- _create_minimal_lab concept_name topic ;;
  metadata <- LabGenerationMetadata_init {|
    Models.concept_name := concept_name;
    Models.concept_definition := concept_definition;
    source_topic := topic;
    model_used := Some "template";
    personalization_applied := false
  |} ;;
  CompleteLabResult_init {|
    lab := lab;
    metadata := metadata;
    success := false;
    error := Some (exc_str e)
  |}.

Definition generate_lab (concept_name concept_definition topic : string)
           (personalization_context : option string) : result CompleteLabResult :=
  try_except
    (generate_lab_try concept_name concept_definition topic personalization_context)
    (generate_lab_except concept_name concept_definition topic).

End TemplateLabGenerator.

(** ** services/lab_generation_service.py: the prompted generator *)

Module LabGenerationService.
Import Models Pydantic.

(** The double-quote character and a quoted word. *)
Definition dq : string := String (ascii_of_nat 34) EmptyString.

(** The three pieces of text of [_create_lab_prompt]. *)
Definition prompt_header (concept_name concept_definition topic : string) : string :=
    "You are an expert educator creating hands-on coding labs for big data and database concepts.

Generate a personalized lab for the following concept:

**Concept**: " ++ concept_name ++ "
**Definition**: " ++ concept_definition ++ "
**Topic**: " ++ topic ++ "
".

Definition prompt_personalization (personalization_context : string) : string :=
    "
**Personalization Context**: " ++ personalization_context ++ "

Please incorporate this context into the lab examples and scenarios to make it more engaging and relatable.
For example, if the context is " ++ dq ++ "gaming" ++ dq ++ ", use gaming-related examples like player databases, leaderboards, etc.
".

Definition prompt_structure : string :=
    "

Create a comprehensive lab with the following structure:

1. **Title**: An engaging title that captures the essence of the lab
2. **Difficulty**: Choose from 'easy', 'medium', or 'hard' based on concept complexity
3. **Estimated Time**: Realistic time estimate in minutes (15-180)
4. **Sections**: Create 1-3 sections, each with:
   - A specific aspect of the concept to explore
   - Appropriate difficulty level
   - Scaffolding level (low/medium/high) based on complexity
   - 1-3 exercises with:
     * Type: 'guided' (step-by-step), 'challenge' (minimal guidance), or 'exploration' (open-ended)
     * Number of hints (0-5)
     * Description of what to implement
     * Starter code template
     * Reference solution
     * Test cases for validation

5. **Prerequisites**: List any required knowledge
6. **Technologies**: List technologies/tools used (e.g., Python, MongoDB, Jupyter)

Make the lab practical, hands-on, and focused on real-world applications of the concept.
Include code examples that students can actually run and modify.

Return ONLY valid JSON matching this exact structure:
{
  " ++ dq ++ "title" ++ dq ++ ": " ++ dq ++ "string" ++ dq ++ ",
  " ++ dq ++ "topic" ++ dq ++ ": " ++ dq ++ "string" ++ dq ++ ",
  " ++ dq ++ "difficulty" ++ dq ++ ": " ++ dq ++ "easy|medium|hard" ++ dq ++ ",
  " ++ dq ++ "estimated_time" ++ dq ++ ": number,
  " ++ dq ++ "sections" ++ dq ++ ": [
    {
      " ++ dq ++ "concept" ++ dq ++ ": " ++ dq ++ "string" ++ dq ++ ",
      " ++ dq ++ "title" ++ dq ++ ": " ++ dq ++ "string" ++ dq ++ ",
      " ++ dq ++ "difficulty" ++ dq ++ ": " ++ dq ++ "easy|medium|hard" ++ dq ++ ",
      " ++ dq ++ "scaffolding_level" ++ dq ++ ": " ++ dq ++ "low|medium|high" ++ dq ++ ",
      " ++ dq ++ "exercises" ++ dq ++ ": [
        {
          " ++ dq ++ "type" ++ dq ++ ": " ++ dq ++ "guided|challenge|exploration" ++ dq ++ ",
          " ++ dq ++ "hints" ++ dq ++ ": number,
          " ++ dq ++ "description" ++ dq ++ ": " ++ dq ++ "string" ++ dq ++ ",
          " ++ dq ++ "starter_code" ++ dq ++ ": " ++ dq ++ "string" ++ dq ++ ",
          " ++ dq ++ "solution" ++ dq ++ ": " ++ dq ++ "string" ++ dq ++ ",
          " ++ dq ++ "test_cases" ++ dq ++ ": [{" ++ dq ++ "input" ++ dq ++ ": " ++ dq ++ "..." ++ dq ++ ", " ++ dq ++ "expected" ++ dq ++ ": " ++ dq ++ "..." ++ dq ++ "}]
        }
      ],
      " ++ dq ++ "learning_objectives" ++ dq ++ ": [" ++ dq ++ "string" ++ dq ++ "],
      " ++ dq ++ "background" ++ dq ++ ": " ++ dq ++ "string" ++ dq ++ "
    }
  ],
  " ++ dq ++ "prerequisites" ++ dq ++ ": [" ++ dq ++ "string" ++ dq ++ "],
  " ++ dq ++ "technologies" ++ dq ++ ": [" ++ dq ++ "string" ++ dq ++ "],
  " ++ dq ++ "personalization_context" ++ dq ++ ": " ++ dq ++ "string or null" ++ dq ++ "
}
".

Definition _create_lab_prompt (concept_name concept_definition topic : string)
           (personalization_context : option string) : string :=
  let base_prompt := prompt_header concept_name concept_definition topic in
  let base_prompt :=
    match personalization_context with
    | Some ctx =>
        if PyStr.truthy personalization_context
        then base_prompt ++ prompt_personalization ctx
        else base_prompt
    | None => base_prompt
    end in
  base_prompt ++ prompt_structure.

Definition TypeError (msg : string) : Exception := mkException "TypeError" msg.

Definition _create_fallback_lab (concept_name topic : string)
  : result PersonalizedLab :=
  exercise <- LabExercise_init {|
    type := "guided";
    hints := 3%Z;
    description := Some ("Learn the basics of " ++ concept_name);
    starter_code := Some ("# TODO: Implement your solution here"
                          ++ String (ascii_of_nat 10) EmptyString);
    solution := Some "# Solution will be provided";
    test_cases := Some []
  |} ;;
  section <- LabSection_init {|
    concept := concept_name;
    section_title := "Exploring " ++ concept_name;
    section_difficulty := "medium";
    scaffolding_level := "medium";
    exercises := [exercise];
    learning_objectives := Some ["Understand " ++ concept_name];
    background := Some ("This lab introduces " ++ concept_name)
  |} ;;
  PersonalizedLab_init {|
    title := "Introduction to " ++ concept_name;
    topic := topic;
    difficulty := "medium";
    estimated_time := 45%Z;
    sections := [section];
    prerequisites := Some ["Basic programming knowledge"];
    technologies := Some ["Python"; "Jupyter Notebook"];
    personalization_context := None
  |}.

Section Service.

(** The external text-generation service: [self.llm.invoke(prompt)]
    followed by [.content].  It answers from a state of its own, so
    that a second call may answer differently from the first. *)
Variable World : Type.
Variable llm_invoke : string -> World -> result string * World.

(** [self.parser.parse]: the JSON output parser. *)
Variable parser_parse : string -> result json.

(** [self.model_name] *)
Variable model_name : string.

(** The state of the service together with the prompts sent to it so
    far, oldest first. *)
Record Session : Type := mkSession {
  world : World;
  prompts_sent : list string
}.

Definition invoke (prompt : string) (s : Session) : result string * Session :=
  let '(response, w) := llm_invoke prompt (world s) in
  (response, mkSession w (prompts_sent s ++ [prompt])%list).

(** The statements of the [try] block that follow the call of the
    service. *)
Definition generate_lab_try (concept_name concept_definition topic : string)
           (personalization_context : option string)
           (response : result string) : result CompleteLabResult :=
  content <- response ;;
  (* Parse response *)
  lab_data <- parser_parse content ;;
  (* Create PersonalizedLab object *)
  lab <- match lab_data with
         | JObj kwargs => PersonalizedLab_validate kwargs
         | _ => raise (TypeError "argument after ** must be a mapping")
         end ;;
  (* Create metadata *)
  metadata <- LabGenerationMetadata_init {|
    Models.concept_name := concept_name;
    Models.concept_definition := concept_definition;
    source_topic := topic;
    model_used := Some model_name;
    personalization_applied :=
      match personalization_context with Some _ => true | None => false end
  |} ;;
  CompleteLabResult_init {|
    lab := lab;
    metadata := metadata;
    success := true;
    error := None
  |}.

(** The [except Exception as e] handler. *)
Definition generate_lab_except (concept_name concept_definition topic : string)
           (e : Exception) : result CompleteLabResult :=
  lab <- _create_fallback_lab concept_name topic ;;
  metadata <- LabGenerationMetadata_init {|
    Models.concept_name := concept_name;
    Models.concept_definition := concept_definition;
    source_topic := topic;
    model_used := Some model_name;
    personalization_applied := false
  |} ;;
  CompleteLabResult_init {|
    lab := lab;
    metadata := metadata;
    success := false;
    error := Some (exc_str e)
  |}.

Definition generate_lab (concept_name concept_definition topic : string)
           (personalization_context : option string) (s : Session)
  : result CompleteLabResult * Session :=
  (* Create prompt *)
  let prompt :=
    _create_lab_prompt concept_name concept_definition topic
                       personalization_context in
  (* Generate lab using LLM *)
  let '(response, s') := invoke prompt s in
  (try_except
     (generate_lab_try concept_name concept_definition topic
                       personalization_context response)
     (generate_lab_except concept_name concept_definition topic),
   s').

End Service.

Arguments mkSession {World} _ _.
Arguments world {World} _.
Arguments prompts_sent {World} _.
Arguments invoke {World} _ _ _.
Arguments generate_lab {World} _ _ _ _ _ _ _ _.

End LabGenerationService.

(** ** The classifier as the specification words it *)

Module DifficultyReference.

(** Two characters are the same up to case. *)
Definition same_letter (a b : ascii) : bool :=
  Ascii.eqb (PyStr.lower_char a) (PyStr.lower_char b).

Fixpoint starts_with_nocase (kw s : string) : bool :=
  match kw, s with
  | EmptyString, _ => true
  | String k kw', String c s' => same_letter k c && starts_with_nocase kw' s'
  | String _ _, EmptyString => false
  end.

(** [kw] occurs somewhere in [s], ignoring case. *)
Fixpoint occurs_nocase (kw s : string) : bool :=
  starts_with_nocase kw s ||
  match s with
  | EmptyString => false
  | String _ s' => occurs_nocase kw s'
  end.

Definition keyword_matches (concept_name concept_definition : string)
           (entry : string * string) : bool :=
  occurs_nocase (fst entry) concept_name
  || occurs_nocase (fst entry) concept_definition.

(** First matching keyword in table order wins; otherwise the length
    of the definition decides. *)
Definition reference_difficulty (concept_name concept_definition : string)
  : string :=
  match find (keyword_matches concept_name concept_definition)
             TemplateLabGenerator.difficulty_map with
  | Some (_, difficulty) => difficulty
  | None =>
      if (200 <? String.length concept_definition)%nat then "hard"
      else if (100 <? String.length concept_definition)%nat then "medium"
      else "easy"
  end.

End DifficultyReference.

(** ** utils/file_utils.py *)

Module FileUtils.
Import Models.

(** *** sanitize_filename *)

Definition space : ascii := ascii_of_nat 32.
Definition underscore : ascii := ascii_of_nat 95.
Definition hyphen : ascii := ascii_of_nat 45.
Definition period : ascii := ascii_of_nat 46.

(** [\w] on ASCII text: letters, digits and the underscore. *)
Definition is_word (c : ascii) : bool :=
  PyStr.is_upper c || PyStr.is_lower c || PyStr.is_digit c || Ascii.eqb c underscore.

(** A character outside the class [[^\w\-_.]] is kept. *)
Definition is_kept (c : ascii) : bool :=
  is_word c || Ascii.eqb c hyphen || Ascii.eqb c underscore || Ascii.eqb c period.

(** [name.replace(' ', '_')] *)
Fixpoint replace_spaces (s : string) : string :=
  match s with
  | EmptyString => EmptyString
  | String c s' =>
      String (if Ascii.eqb c space then underscore else c) (replace_spaces s')
  end.

(** [re.sub(r'[^\w\-_.]', '', s)] *)
Fixpoint remove_invalid (s : string) : string :=
  match s with
  | EmptyString => EmptyString
  | String c s' =>
      if is_kept c then String c (remove_invalid s') else remove_invalid s'
  end.

Definition starts_with_underscore (s : string) : bool :=
  match s with
  | EmptyString => false
  | String c _ => Ascii.eqb c underscore
  end.

(** [re.sub(r'_+', '_', s)]: of a run of underscores only the last
    position is kept. *)
Fixpoint collapse_underscores (s : string) : string :=
  match s with
  | EmptyString => EmptyString
  | String c s' =>
      if Ascii.eqb c underscore && starts_with_underscore s'
      then collapse_underscores s'
      else String c (collapse_underscores s')
  end.

Fixpoint take (n : nat) (s : string) : string :=
  match n, s with
  | O, _ => EmptyString
  | S _, EmptyString => EmptyString
  | S n', String c s' => String c (take n' s')
  end.

(** [s[:stop]]: a negative [stop] counts from the end. *)
Definition slice_to (s : string) (stop : Z) : string :=
  if (0 <=? stop)%Z then take (Z.to_nat stop) s
  else take (Z.to_nat (PyStr.len s + stop)) s.

Fixpoint char_in (c : ascii) (chars : string) : bool :=
  match chars with
  | EmptyString => false
  | String d chars' => Ascii.eqb c d || char_in c chars'
  end.

(** [s.rstrip(chars)] *)
Fixpoint rstrip (chars : string) (s : string) : string :=
  match s with
  | EmptyString => EmptyString
  | String c s' =>
      match rstrip chars s' with
      | EmptyString => if char_in c chars then EmptyString else String c EmptyString
      | String _ _ as r => String c r
      end
  end.

Definition sanitize_filename (name : string) (max_length : Z) : string :=
  (* Replace spaces with underscores *)
  let sanitized := replace_spaces name in
  (* Remove or replace invalid characters *)
  let sanitized := remove_invalid sanitized in
  (* Remove multiple consecutive underscores *)
  let sanitized := collapse_underscores sanitized in
  (* Trim to max length *)
  let sanitized :=
    if (PyStr.len sanitized >? max_length)%Z then slice_to sanitized max_length
    else sanitized in
  (* Remove trailing underscores or dots *)
  rstrip "_." sanitized.

(** The default of the [max_length] argument. *)
Definition default_max_length : Z := 100.

Definition sanitize (name : string) : string :=
  sanitize_filename name default_max_length.

(** *** load_concepts_from_export *)

Definition AttributeError (msg : string) : Exception :=
  mkException "AttributeError" msg.
Definition TypeError (msg : string) : Exception :=
  mkException "TypeError" msg.

(** [v.get(key, default)]: only a [dict] has the method. *)
Definition py_get (v : json) (key : string) (default : json) : result json :=
  match v with
  | JObj d => ret (dict_get d key default)
  | _ => raise (AttributeError "object has no attribute 'get'")
  end.

Fixpoint chars_of (s : string) : list json :=
  match s with
  | EmptyString => []
  | String c s' => JStr (String c EmptyString) :: chars_of s'
  end.

(** The items a [for] loop runs over: the elements of a list, the keys
    of a dict, the characters of a string. *)
Definition py_iter (v : json) : result (list json) :=
  match v with
  | JArr items => ret items
  | JObj d => ret (map JStr (dict_keys d))
  | JStr s => ret (chars_of s)
  | _ => raise (TypeError "object is not iterable")
  end.

(** The dictionary appended for one concept. *)
Definition concept_entry (topic concept : json) : result dict :=
  name <- py_get concept "name" (JStr EmptyString) ;;
  definition <- py_get concept "definition" (JStr EmptyString) ;;
  text_evidence <- py_get concept "text_evidence" (JStr EmptyString) ;;
  ret [ ("name", name);
        ("definition", definition);
        ("topic", topic);
        ("text_evidence", text_evidence) ].

(** The inner loop: [concepts.append(...)] for each concept. *)
Fixpoint for_concepts (topic : json) (items : list json) (concepts : list dict)
  : result (list dict) :=
  match items with
  | [] => ret concepts
  | concept :: rest =>
      entry <- concept_entry topic concept ;;
      for_concepts topic rest (concepts ++ [entry])%list
  end.

(** The outer loop over the theories. *)
Fixpoint for_theories (items : list json) (concepts : list dict)
  : result (list dict) :=
  match items with
  | [] => ret concepts
  | theory :: rest =>
      topic <- py_get theory "topic" (JStr "Unknown") ;;
      cs <- py_get theory "concepts" (JArr []) ;;
      cs_items <- py_iter cs ;;
      concepts' <- for_concepts topic cs_items concepts ;;
      for_theories rest concepts'
  end.

(** [data] is the document that [json.load] returned for the export
    file. *)
Definition load_concepts_from_export (data : json) : result (list dict) :=
  theories <- py_get data "theories" (JArr []) ;;
  items <- py_iter theories ;;
  for_theories items [].

End FileUtils.

(** *** The output organiser.  A file system is the list of the JSON
    documents written so far, the latest first; [json.dump] followed by
    [json.load] is taken to give the document back. *)

Module Organizer.
Import Models Pydantic FileUtils.

Definition FileSystem : Type := list (string * json).

Definition write_json (path : string) (data : json) (fs : FileSystem) : FileSystem :=
  (path, data) :: fs.

Fixpoint read_json (path : string) (fs : FileSystem) : option json :=
  match fs with
  | [] => None
  | (p, data) :: fs' => if String.eqb p path then Some data else read_json path fs'
  end.

(** [Path(a) / b], up to normalisation of the path. *)
Definition path_join (a b : string) : string := a ++ "/" ++ b.

(** The directory itself is not part of the model, only its path. *)
Definition create_output_directory (base_dir concept_name : string) : string :=
  let sanitized_name := sanitize concept_name in
  path_join base_dir sanitized_name.

Definition save_lab_json (lab_data : dict) (output_path filename : string)
           (fs : FileSystem) : string * FileSystem :=
  let file_path := path_join output_path filename in
  (file_path, write_json file_path (JObj lab_data) fs).

Definition organize_lab_output (lab_result : CompleteLabResult)
           (output_dir concept_name : string) (fs : FileSystem)
  : list (string * string) * FileSystem :=
  (* Create concept-specific directory *)
  let concept_dir := create_output_directory output_dir concept_name in
  (* Prepare lab data for JSON export *)
  let lab_data : dict :=
    [ ("lab", JObj (PersonalizedLab_model_dump (lab lab_result)));
      ("metadata", JObj (LabGenerationMetadata_model_dump (metadata lab_result)));
      ("success", JBool (success lab_result)) ] in
  let lab_data : dict :=
    match error lab_result with
    | Some err =>
        if PyStr.truthy (error lab_result)
        then (lab_data ++ [("error", JStr err)])%list
        else lab_data
    | None => lab_data
    end in
  (* Save lab JSON *)
  let '(lab_file, fs) :=
    save_lab_json lab_data concept_dir (sanitize concept_name ++ "_lab.json") fs in
  (* Save simplified version (just the lab content) *)
  let simplified_data := PersonalizedLab_model_dump (lab lab_result) in
  let '(simplified_file, fs) :=
    save_lab_json simplified_data concept_dir "lab_content.json" fs in
  ([ ("concept_dir", concept_dir);
     ("full_lab_file", lab_file);
     ("simplified_file", simplified_file) ], fs).

(** Reading a lab back from a saved file: the stored document is passed
    to [PersonalizedLab] as keyword arguments.  The sources write the
    files and never read a lab back; this is the reading that the
    round-trip property speaks of. *)
Definition load_lab (path : string) (fs : FileSystem) : option (result PersonalizedLab) :=
  match read_json path fs with
  | Some (JObj d) => Some (PersonalizedLab_validate d)
  | Some _ => Some (raise (TypeError "argument after ** must be a mapping"))
  | None => None
  end.

End Organizer.

(** ** Vocabulary of the properties *)

Module Invariants.
Import Models.

(** A keyword that [lower] leaves unchanged. *)
Definition lowercase_word (kw : string) : Prop := PyStr.lower kw = kw.

(** The kind of an exercise and its number of hints. *)
Definition kind_and_hints (e : LabExercise) : string * Z := (type e, hints e).

(** Exercise: the hint count lies in [0, 5] and the kind is one of the
    three. *)
Definition exercise_invariant (e : LabExercise) : Prop :=
  (0 <= hints e <= 5)%Z /\ In (type e) ["guided"; "challenge"; "exploration"].

(** Section, as the models constrain it: the two levels are of the
    allowed values and there is at least one exercise, each of them
    well formed. *)
Definition section_invariant (s : LabSection) : Prop :=
  In (section_difficulty s) ["easy"; "medium"; "hard"]
  /\ In (scaffolding_level s) ["low"; "medium"; "high"]
  /\ (1 <= List.length (exercises s))%nat
  /\ Forall exercise_invariant (exercises s).

(** Lab: the difficulty is one of the three, the estimated minutes lie
    in [15, 180] and there is at least one section, each of them well
    formed. *)
Definition lab_invariant (l : PersonalizedLab) : Prop :=
  In (difficulty l) ["easy"; "medium"; "hard"]
  /\ (15 <= estimated_time l <= 180)%Z
  /\ (1 <= List.length (sections l))%nat
  /\ Forall section_invariant (sections l).

(** The data model of the specification asks, beyond [lab_invariant],
    for a non-empty concept name in every section. *)
Definition named_sections (l : PersonalizedLab) : Prop :=
  Forall (fun s => concept s <> EmptyString) (sections l).

(** Every character of [s] survives [remove_invalid]. *)
Fixpoint all_kept (s : string) : bool :=
  match s with
  | EmptyString => true
  | String c s' => FileUtils.is_kept c && all_kept s'
  end.

(** No two underscores stand next to each other in [s]. *)
Fixpoint no_double_underscore (s : string) : bool :=
  match s with
  | EmptyString => true
  | String c s' =>
      negb (Ascii.eqb c FileUtils.underscore && FileUtils.starts_with_underscore s')
      && no_double_underscore s'
  end.

(** [p] is an initial segment of [s]. *)
Definition prefix_of (p s : string) : Prop := PyStr.startswith p s = true.

(** The record that the reader is to produce for the concept [c] of
    the theory [th]: the three fields of a concept default to the empty
    string and the topic defaults to "Unknown". *)
Definition flat_record (th c : dict) : dict :=
  [ ("name", dict_get c "name" (JStr EmptyString));
    ("definition", dict_get c "definition" (JStr EmptyString));
    ("topic", match dict_lookup "topic" th with
              | Some t => t
              | None => JStr "Unknown"
              end);
    ("text_evidence", dict_get c "text_evidence" (JStr EmptyString)) ].

(** The records of a list of theories paired with their concepts, theory
    by theory and concept by concept in the order of the source. *)
Definition flat_records (theories : list (dict * list dict)) : list dict :=
  flat_map (fun tc => map (flat_record (fst tc)) (snd tc)) theories.

(** The theory [th] lists exactly the concepts [cs]. *)
Definition lists_concepts (tc : dict * list dict) : Prop :=
  dict_get (fst tc) "concepts" (JArr []) = JArr (map JObj (snd tc)).

(** The path stored under [key] in the dictionary of saved files. *)
Fixpoint saved_path (key : string) (files : list (string * string)) : option string :=
  match files with
  | [] => None
  | (k, path) :: files' => if String.eqb k key then Some path else saved_path key files'
  end.

End Invariants.

(** ** Sample inputs and stand-ins for the external collaborators *)

Module Samples.
Import Models.

(** An export with one theory and one concept that carries evidence. *)
Definition sample_export : json :=
  JObj [ ("theories", JArr [
    JObj [ ("topic", JStr "NoSQL Databases");
           ("concepts", JArr [
             JObj [ ("name", JStr "CAP Theorem");
                    ("definition", JStr "Consistency, Availability, Partition tolerance");
                    ("text_evidence", JStr "as stated in the lecture notes") ] ]) ] ]) ].

(** Stand-ins for the external service and for the output parser: a
    service that raises [e] on every call, a service and a parser that
    answer with a fixed text and a fixed document. *)
Definition failing_llm (e : Exception) : string -> unit -> result string * unit :=
  fun _ w => (raise e, w).

Definition canned_llm (content : string) : string -> unit -> result string * unit :=
  fun _ w => (ret content, w).

Definition canned_parser (doc : json) : string -> result json :=
  fun _ => ret doc.

Definition new_session : LabGenerationService.Session unit :=
  LabGenerationService.mkSession tt [].

(** A lab as a service could answer it. *)
Definition sample_lab : PersonalizedLab :=
  {| title := "CAP Theorem in the Recording Studio";
     topic := "NoSQL Databases";
     difficulty := "hard";
     estimated_time := 90%Z;
     sections := [
       {| concept := "CAP Theorem";
          section_title := "Choosing two of three";
          section_difficulty := "hard";
          scaffolding_level := "low";
          exercises := [
            {| type := "exploration";
               hints := 0%Z;
               description := Some "Partition a playlist store";
               starter_code := None;
               solution := None;
               test_cases := Some [ [ ("input", JInt 3); ("expected", JBool true) ] ] |};
            {| type := "challenge";
               hints := 5%Z;
               description := None;
               starter_code := Some "# start here";
               solution := Some "# done";
               test_cases := None |} ];
          learning_objectives := None;
          background := Some "Consistency, availability, partition tolerance" |} ];
     prerequisites := Some ["Replication"];
     technologies := None;
     personalization_context := Some "music" |}.

Definition sample_result : CompleteLabResult :=
  {| lab := sample_lab;
     metadata := {| concept_name := "CAP Theorem";
                    concept_definition := "Consistency, availability, partition tolerance";
                    source_topic := "NoSQL Databases";
                    model_used := Some "gpt-4";
                    personalization_applied := true |};
     success := true;
     error := None |}.

(** A second result, for another lab. *)
Definition other_result : CompleteLabResult :=
  {| lab := {| title := "Introduction to CAP Theorem";
               topic := "Distributed Systems";
               difficulty := "medium";
               estimated_time := 45%Z;
               sections := [
                 {| concept := "CAP_Theorem!!";
                    section_title := "Learning CAP Theorem";
                    section_difficulty := "medium";
                    scaffolding_level := "medium";
                    exercises := [
                      {| type := "guided";
                         hints := 3%Z;
                         description := None;
                         starter_code := None;
                         solution := None;
                         test_cases := None |} ];
                    learning_objectives := None;
                    background := None |} ];
               prerequisites := None;
               technologies := Some ["Python"];
               personalization_context := None |};
     metadata := {| concept_name := "CAP_Theorem!!";
                    concept_definition := "the same theorem under another name";
                    source_topic := "Distributed Systems";
                    model_used := Some "template";
                    personalization_applied := false |};
     success := false;
     error := Some "Request timed out." |}.

End Samples.

(** ** Further vocabulary: names that are safe as they stand *)

Module SafeNames.
Import FileUtils.

(** The last character of [s], if any. *)
Fixpoint last_char (s : string) : option ascii :=
  match s with
  | EmptyString => None
  | String c EmptyString => Some c
  | String _ s' => last_char s'
  end.

(** Every character of [s] is one of [chars]. *)
Fixpoint all_in (chars : string) (s : string) : bool :=
  match s with
  | EmptyString => true
  | String c s' => char_in c chars && all_in chars s'
  end.

(** [s] does not end in an underscore or a period. *)
Definition no_trailing_separator (s : string) : Prop :=
  forall c, last_char s = Some c -> char_in c "_." = false.

(** Every character of [s] is dropped by the sanitiser or is a space, an
    underscore or a period. *)
Fixpoint only_separators (s : string) : bool :=
  match s with
  | EmptyString => true
  | String c s' =>
      (negb (is_kept c) || Ascii.eqb c underscore || Ascii.eqb c period)
      && only_separators s'
  end.

End SafeNames.

(** ** Further vocabulary: the fields of a lab document *)

Module LabDocuments.

(** The keys that [PersonalizedLab] reads from a keyword dictionary. *)
Definition required_fields : list string :=
  ["title"; "topic"; "difficulty"; "estimated_time"; "sections"].

Definition optional_fields : list string :=
  ["prerequisites"; "technologies"; "personalization_context"].

(** Every failure of a validation is a [ValidationError]. *)
Definition is_validation_error (e : Exception) : Prop :=
  exc_class e = "ValidationError".

Definition fails_validly {A : Type} (m : result A) : Prop :=
  forall e, m = inl e -> is_validation_error e.

End LabDocuments.

(** ** utils/file_utils.py: the summary report *)

Module Summary.
Import Models Organizer.

(** [sum(1 for r in results if p(r))] *)
Definition count_where {A : Type} (p : A -> bool) (l : list A) : Z :=
  Z.of_nat (List.length (filter p l)).

(** The entry of one result in the list of labs. *)
Definition lab_info (result : CompleteLabResult) : dict :=
  let info : dict :=
    [ ("concept", JStr (concept_name (metadata result)));
      ("topic", JStr (source_topic (metadata result)));
      ("title", JStr (title (lab result)));
      ("difficulty", JStr (difficulty (lab result)));
      ("estimated_time", JInt (estimated_time (lab result)));
      ("num_sections", JInt (Z.of_nat (List.length (sections (lab result)))));
      ("success", JBool (success result)) ] in
  match error result with
  | Some err =>
      if PyStr.truthy (error result) then (info ++ [("error", JStr err)])%list else info
  | None => info
  end.

Definition create_summary_report (results : list CompleteLabResult)
           (output_dir : string) (fs : FileSystem) : string * FileSystem :=
  let summary : dict :=
    [ ("total_labs", JInt (Z.of_nat (List.length results)));
      ("successful", JInt (count_where success results));
      ("failed", JInt (count_where (fun r => negb (success r)) results));
      ("labs", JArr (map (fun result => JObj (lab_info result)) results)) ] in
  (* Save summary *)
  let summary_path := path_join output_dir "generation_summary.json" in
  (summary_path, write_json summary_path (JObj summary) fs).

End Summary.

(** ** services/lab_generation_service.py: generate_batch_labs *)

Module LabGenerationBatch.
Import Models LabGenerationService.

Definition KeyError (key : string) : Exception :=
  mkException "KeyError" ("'" ++ key ++ "'").

(** [concept[key]] on a [Dict[str, str]]. *)
Fixpoint getitem (concept : list (string * string)) (key : string) : result string :=
  match concept with
  | [] => raise (KeyError key)
  | (k, v) :: concept' => if String.eqb k key then ret v else getitem concept' key
  end.

(** The values that one turn of the loop reads from the concept: the
    name for the progress line, then the three arguments of the call. *)
Definition concept_arguments (concept : list (string * string))
  : result (string * string * string) :=
  _ <- getitem concept "name" ;;
  name <- getitem concept "name" ;;
  definition <- getitem concept "definition" ;;
  topic <- getitem concept "topic" ;;
  ret (name, definition, topic).

Section Batch.

Variable World : Type.
Variable llm_invoke : string -> World -> result string * World.
Variable parser_parse : string -> result json.
Variable model_name : string.

(** The [for] loop: [results] are the results appended so far. *)
Fixpoint batch_loop (concepts : list (list (string * string)))
         (personalization_context : option string)
         (results : list CompleteLabResult) (s : Session World)
  : result (list CompleteLabResult) * Session World :=
  match concepts with
  | [] => (ret results, s)
  | concept :: rest =>
      match concept_arguments concept with
      | inl e => (raise e, s)
      | inr (name, definition, topic) =>
          let '(outcome, s') :=
            generate_lab llm_invoke parser_parse model_name
                         name definition topic personalization_context s in
          match outcome with
          | inl e => (raise e, s')
          | inr result =>
              batch_loop rest personalization_context (results ++ [result])%list s'
          end
      end
  end.

Definition generate_batch_labs (concepts : list (list (string * string)))
           (personalization_context : option string) (s : Session World)
  : result (list CompleteLabResult) * Session World :=
  batch_loop concepts personalization_context [] s.

End Batch.

Arguments batch_loop {World} _ _ _ _ _ _ _.
Arguments generate_batch_labs {World} _ _ _ _ _ _.

End LabGenerationBatch.

(** ** generate_all_labs.py: the batch driver of the template generator *)

Module GenerateAllLabs.
Import Models FileUtils Organizer Summary.

(** [concept[key]] on a dictionary of JSON values. *)
Definition py_getitem (d : dict) (key : string) : result json :=
  match dict_lookup key d with
  | Some v => ret v
  | None => raise (LabGenerationBatch.KeyError key)
  end.

(** The exception that leaves a generator called with a name, definition
    or topic that is not a string.  The [try] block fails on such a value
    (no [lower] method, or a [str] field of a model refused), and so does
    the handler when it builds its own result: the section refuses the
    name, else the lab refuses the topic, else the metadata refuse the
    definition. *)
Definition rejected_argument (name topic : json) : Exception :=
  match name, topic with
  | JStr _, JStr _ => ValidationError "LabGenerationMetadata"
  | JStr _, _ => ValidationError "PersonalizedLab"
  | _, _ => ValidationError "LabSection"
  end.

(** [generator.generate_lab] on the values of a concept record. *)
Definition generate_lab_from (name definition topic : json)
           (personalization_context : option string) : result CompleteLabResult :=
  match name, definition, topic with
  | JStr n, JStr d, JStr t =>
      TemplateLabGenerator.generate_lab n d t personalization_context
  | _, _, _ => raise (rejected_argument name topic)
  end.

(** What the function returns; the processing time is left out. *)
Record BatchReport : Type := mkBatchReport {
  total_concepts : Z;
  successful : Z;
  failed : Z;
  summary_path : string;
  results : list CompleteLabResult
}.

(** The variables of the loop and the file system. *)
Record Progress : Type := mkProgress {
  done : list CompleteLabResult;
  n_successful : Z;
  n_failed : Z;
  files : FileSystem
}.

(** The [try] block of one turn: generate the lab and save it. *)
Definition process_concept (concept : dict) (output_dir : string)
           (personalization_context : option string) (fs : FileSystem)
  : result (CompleteLabResult * FileSystem) :=
  name <- py_getitem concept "name" ;;
  definition <- py_getitem concept "definition" ;;
  topic <- py_getitem concept "topic" ;;
  result <- generate_lab_from name definition topic personalization_context ;;
  match name with
  | JStr n =>
      let '(_, fs') := organize_lab_output result output_dir n fs in
      ret (result, fs')
  | _ => raise (rejected_argument name topic)
  end.

Fixpoint process_concepts (concepts : list dict) (output_dir : string)
         (personalization_context : option string) (p : Progress) : result Progress :=
  match concepts with
  | [] => ret p
  | concept :: rest =>
      (* concept_name = concept['name'], ahead of the try block *)
      _ <- py_getitem concept "name" ;;
      let p' :=
        match process_concept concept output_dir personalization_context (files p) with
        | inr (result, fs') =>
            if success result
            then mkProgress (done p ++ [result]) (n_successful p + 1) (n_failed p) fs'
            else mkProgress (done p ++ [result]) (n_successful p) (n_failed p + 1) fs'
        | inl _ =>
            mkProgress (done p) (n_successful p) (n_failed p + 1) (files p)
        end in
      process_concepts rest output_dir personalization_context p'
  end.


End GenerateAllLabs.

(** ** ingestion.py: the ingestion service of the prompted generator *)

Module LabIngestionService.
Import Models FileUtils Organizer Summary LabGenerationService GenerateAllLabs.

(** [l[:stop]] on a list: a negative [stop] counts from the end. *)
Definition list_slice_to {A : Type} (l : list A) (stop : Z) : list A :=
  if (0 <=? stop)%Z then firstn (Z.to_nat stop) l
  else firstn (Z.to_nat (Z.of_nat (List.length l) + stop)) l.

(** [if limit: concepts = concepts[:limit]]: no limit and the limit 0
    are both falsy. *)
Definition limit_concepts (concepts : list dict) (limit : option Z) : list dict :=
  match limit with
  | Some n => if (n =? 0)%Z then concepts else list_slice_to concepts n
  | None => concepts
  end.

(** The search of the single mode: the first record whose name equals
    the wanted one up to case, [None] when the records run out. *)
Fixpoint find_concept (concepts : list dict) (wanted : string) : result (option dict) :=
  match concepts with
  | [] => ret None
  | c :: rest =>
      name <- py_getitem c "name" ;;
      match name with
      | JStr n =>
          if String.eqb (PyStr.lower n) (PyStr.lower wanted)
          then ret (Some c)
          else find_concept rest wanted
      | _ => raise (AttributeError "object has no attribute 'lower'")
      end
  end.

(** The two dictionaries that [generate_single_lab] can return. *)
Inductive SingleLab : Type :=
| Generated (success : bool) (concept_name topic : json)
            (saved_files : list (string * string)) (result : CompleteLabResult)
| Errored (concept_name topic : json) (error : string).

(** The value under the key 'success'. *)
Definition single_success (r : SingleLab) : bool :=
  match r with
  | Generated success _ _ _ _ => success
  | Errored _ _ _ => false
  end.

(** The variables of the batch loop, the session and the files. *)
Record Progress (World : Type) : Type := mkProgress {
  done : list CompleteLabResult;
  n_successful : Z;
  n_failed : Z;
  session : Session World;
  files : FileSystem
}.
Arguments mkProgress {World} _ _ _ _ _.
Arguments done {World} _.
Arguments n_successful {World} _.
Arguments n_failed {World} _.
Arguments session {World} _.
Arguments files {World} _.

Section Ingestion.

Variable World : Type.
Variable llm_invoke : string -> World -> result string * World.
Variable parser_parse : string -> result json.
Variable model_name : string.

(** The text that an f-string puts for a value that is not a string. *)
Variable py_format : json -> string.

Definition format_value (v : json) : string :=
  match v with
  | JStr s => s
  | _ => py_format v
  end.

(** [self.lab_generator.generate_lab] on the values of a concept record.
    With a value that is not a string the prompt is still built and
    sent; the exception of [rejected_argument] leaves the generator
    afterwards. *)
Definition generate_lab_from (name definition topic : json)
           (personalization_context : option string) (s : Session World)
  : result CompleteLabResult * Session World :=
  match name, definition, topic with
  | JStr n, JStr d, JStr t =>
      generate_lab llm_invoke parser_parse model_name n d t personalization_context s
  | _, _, _ =>
      let prompt :=
        _create_lab_prompt (format_value name) (format_value definition)
                           (format_value topic) personalization_context in
      let '(_, s') := invoke llm_invoke prompt s in
      (raise (rejected_argument name topic), s')
  end.

Definition generate_single_lab (concept_name concept_definition topic : json)
           (output_dir : string) (personalization_context : option string)
           (s : Session World) (fs : FileSystem)
  : SingleLab * Session World * FileSystem :=
  (* Generate lab *)
  let '(outcome, s') :=
    generate_lab_from concept_name concept_definition topic personalization_context s in
  match outcome, concept_name with
  | inr result, JStr n =>
      (* Organize and save output *)
      let '(saved_files, fs') := organize_lab_output result output_dir n fs in
      (Generated (success result) concept_name topic saved_files result, s', fs')
  | inr _, _ =>
      (Errored concept_name topic "object has no attribute 'replace'", s', fs)
  | inl e, _ => (Errored concept_name topic (exc_str e), s', fs)
  end.

(** The [try] block of one turn of the batch loop; an exception leaves
    the counters to the handler. *)
Definition process_concept (concept : dict) (output_dir : string)
           (personalization_context : option string) (p : Progress World)
  : Progress World :=
  match (name <- py_getitem concept "name" ;;
         definition <- py_getitem concept "definition" ;;
         topic <- py_getitem concept "topic" ;;
         ret (name, definition, topic)) with
  | inl _ => mkProgress (done p) (n_successful p) (n_failed p + 1) (session p) (files p)
  | inr (name, definition, topic) =>
      let '(single, s', fs') :=
        generate_single_lab name definition topic output_dir personalization_context
                            (session p) (files p) in
      match single with
      | Generated success _ _ _ result =>
          if success
          then mkProgress (done p ++ [result]) (n_successful p + 1) (n_failed p) s' fs'
          else mkProgress (done p ++ [result]) (n_successful p) (n_failed p + 1) s' fs'
      | Errored _ _ _ =>
          (* result['result'] raises KeyError *)
          mkProgress (done p) (n_successful p) (n_failed p + 1) s' fs'
      end
  end.

Fixpoint process_concepts (concepts : list dict) (output_dir : string)
         (personalization_context : option string) (p : Progress World)
  : result (Progress World) :=
  match concepts with
  | [] => ret p
  | concept :: rest =>
      (* the progress line reads concept['name'] ahead of the try block *)
      _ <- py_getitem concept "name" ;;
      process_concepts rest output_dir personalization_context
        (process_concept concept output_dir personalization_context p)
  end.

Definition generate_batch_labs (data : json) (output_dir : string)
           (personalization_context : option string) (limit : option Z)
           (s : Session World) (fs : FileSystem)
  : result (BatchReport * Session World * FileSystem) :=
  (* Load concepts from export *)
  concepts <- load_concepts_from_export data ;;
  let concepts := limit_concepts concepts limit in
  let total_concepts := Z.of_nat (List.length concepts) in
  (* Process each concept *)
  p <- process_concepts concepts output_dir personalization_context
         (mkProgress [] 0 0 s fs) ;;
  (* Create summary report *)
  let '(summary_path, fs') := create_summary_report (done p) output_dir (files p) in
  ret (mkBatchReport total_concepts (n_successful p) (n_failed p) summary_path (done p),
       session p, fs').

(** The single mode of [main]: [concept] is the [--concept] argument. *)
Definition single_mode (data : json) (concept : option string) (output_dir : string)
           (personalization_context : option string)
           (s : Session World) (fs : FileSystem)
  : result (option SingleLab * Session World * FileSystem) :=
  match concept with
  | Some wanted =>
      if PyStr.truthy concept then
        (* Load concepts to find the specified one *)
        concepts <- load_concepts_from_export data ;;
        concept_data <- find_concept concepts wanted ;;
        match concept_data with
        | None => ret (None, s, fs)
        | Some c =>
            name <- py_getitem c "name" ;;
            definition <- py_getitem c "definition" ;;
            topic <- py_getitem c "topic" ;;
            let '(single, s', fs') :=
              generate_single_lab name definition topic output_dir
                                  personalization_context s fs in
            ret (Some single, s', fs')
        end
      else ret (None, s, fs)
  | None => ret (None, s, fs)
  end.

End Ingestion.

Arguments generate_lab_from {World} _ _ _ _ _ _ _ _ _.
Arguments generate_single_lab {World} _ _ _ _ _ _ _ _ _ _ _.
Arguments process_concept {World} _ _ _ _ _ _ _ _.
Arguments process_concepts {World} _ _ _ _ _ _ _ _.
Arguments generate_batch_labs {World} _ _ _ _ _ _ _ _ _ _.
Arguments single_mode {World} _ _ _ _ _ _ _ _ _ _.

End LabIngestionService.

(** ** Further vocabulary: batches *)

Module Batches.
Import Models LabGenerationService.

(** The prompt sent for a concept given by name, definition and topic. *)
Definition prompt_for (ctx : option string) (args : string * string * string) : string :=
  let '(name, definition, topic) := args in
  _create_lab_prompt name definition topic ctx.

(** [r] is a result for the concept [args]: its metadata repeat the
    concept and its lab satisfies the invariant of the models. *)
Definition result_for (args : string * string * string) (r : CompleteLabResult) : Prop :=
  let '(name, definition, topic) := args in
  concept_name (metadata r) = name
  /\ concept_definition (metadata r) = definition
  /\ source_topic (metadata r) = topic
  /\ Invariants.lab_invariant (lab r)
  /\ (success r = true <-> error r = None).

End Batches.

(** ** Further vocabulary: concept records *)

Module Records.
Import Models.



(** The keys of a record as the reader builds it. *)
Definition has_concept_keys (c : dict) : Prop :=
  dict_keys c = ["name"; "definition"; "topic"; "text_evidence"].




(** A JSON value that is not an object. *)
Definition not_an_object (v : json) : Prop :=
  match v with
  | JObj _ => False
  | _ => True
  end.


(** The name of the record is a string that differs from [wanted] even
    when case is ignored. *)
Definition other_name (wanted : string) (c : dict) : Prop :=
  exists n, dict_lookup "name" c = Some (JStr n)
            /\ PyStr.lower n <> PyStr.lower wanted.

(** The name of the record is a string that equals [wanted] up to
    case. *)
Definition same_name (wanted : string) (c : dict) : Prop :=
  exists n, dict_lookup "name" c = Some (JStr n)
            /\ PyStr.lower n = PyStr.lower wanted.

(** [entry] is the entry of the result [r] in the list of labs of a
    summary report. *)
Definition summary_entry (r : CompleteLabResult) (entry : json) : Prop :=
  exists info,
    entry = JObj info
    /\ dict_lookup "concept" info = Some (JStr (concept_name (metadata r)))
    /\ dict_lookup "topic" info = Some (JStr (source_topic (metadata r)))
    /\ dict_lookup "title" info = Some (JStr (title (lab r)))
    /\ dict_lookup "num_sections" info
       = Some (JInt (Z.of_nat (List.length (sections (lab r)))))
    /\ dict_lookup "success" info = Some (JBool (success r))
    /\ dict_lookup "error" info
       = match error r with
         | Some (String c msg) => Some (JStr (String c msg))
         | _ => None
         end.

End Records.

(** * Properties *)

(** ** Difficulty classification *)

Section DifficultyFacts.
Import TemplateLabGenerator DifficultyReference Invariants.

Lemma lowercase_word_cons c kw :
  lowercase_word (String c kw) -> PyStr.lower_char c = c /\ lowercase_word kw.
Proof.
  unfold lowercase_word; simpl; intros H; injection H; auto.
Qed.

Lemma starts_with_nocase_lower kw :
  lowercase_word kw ->
  forall s, starts_with_nocase kw s = PyStr.startswith kw (PyStr.lower s).
Proof.
  induction kw as [|k kw IH]; intros Hkw s.
  - destruct s; reflexivity.
  - apply lowercase_word_cons in Hkw as [Hk Hkw].
    destruct s as [|c s]; simpl; [reflexivity|].
    unfold same_letter. rewrite Hk, (IH Hkw). reflexivity.
Qed.

Lemma occurs_nocase_lower kw :
  lowercase_word kw ->
  forall s, occurs_nocase kw s = PyStr.contains kw (PyStr.lower s).
Proof.
  intros Hkw s; induction s as [|c s IH].
  - simpl. rewrite (starts_with_nocase_lower kw Hkw). reflexivity.
  - cbn [occurs_nocase PyStr.contains].
    rewrite (starts_with_nocase_lower kw Hkw), IH. reflexivity.
Qed.

(** The loop with early return finds the first matching entry. *)
Lemma scan_keywords_find name def items :
  Forall (fun entry => lowercase_word (fst entry)) items ->
  scan_keywords items (PyStr.lower name) (PyStr.lower def)
  = option_map snd (find (keyword_matches name def) items).
Proof.
  induction 1 as [|[kw d] items Hkw _ IH]; [reflexivity|].
  simpl in *. unfold keyword_matches at 1; simpl.
  rewrite !(occurs_nocase_lower kw Hkw).
  destruct (PyStr.contains kw (PyStr.lower name)
            || PyStr.contains kw (PyStr.lower def)); [reflexivity | exact IH].
Qed.

Lemma difficulty_map_lowercase :
  Forall (fun entry => lowercase_word (fst entry)) difficulty_map.
Proof.
  unfold difficulty_map; repeat constructor.
Qed.

Lemma len_threshold (n : nat) (s : string) :
  (Z.of_nat n <? PyStr.len s)%Z = (n <? String.length s)%nat.
Proof.
  unfold PyStr.len.
  destruct (Nat.ltb_spec n (String.length s)); [apply Z.ltb_lt | apply Z.ltb_ge]; lia.
Qed.

(** The classifier only ever answers with one of the three levels. *)
Lemma _determine_difficulty_cases name def :
  _determine_difficulty name def = "easy"
  \/ _determine_difficulty name def = "medium"
  \/ _determine_difficulty name def = "hard".
Proof.
  unfold _determine_difficulty, difficulty_map, scan_keywords.
  repeat match goal with
         | |- context [if ?b then _ else _] => destruct b
         end; auto.
Qed.

(** C1, as amended: on "System Design" / "a database technique" the
    classifier answers medium.  The keywords "database", "system" and
    "technique" all occur, and "database" is the first of them in the
    order of the table (it is the very first entry), so medium wins. *)
Theorem C1_system_design_is_medium :
  _determine_difficulty "System Design" "a database technique" = "medium"
  /\ find (keyword_matches "System Design" "a database technique") difficulty_map
     = Some ("database", "medium")
  /\ keyword_matches "System Design" "a database technique" ("system", "hard") = true
  /\ keyword_matches "System Design" "a database technique" ("technique", "medium") = true.
Proof.
  repeat split; reflexivity.
Qed.

(** C1, as stated, fails: the classifier does not answer hard on that
    input. *)
Lemma C1_system_design_not_hard :
  _determine_difficulty "System Design" "a database technique" <> "hard".
Proof.
  discriminate.
Qed.

(** C2: the classifier of the source agrees on every input with the
    reference definition (first matching keyword in table order,
    ignoring case, else the thresholds 200 and 100 on the length of the
    definition); with no keyword matching, 201 characters give hard,
    101 give medium and 100 give easy. *)
Theorem C2_difficulty_refines_reference :
  (forall concept_name concept_definition,
      _determine_difficulty concept_name concept_definition
      = reference_difficulty concept_name concept_definition)
  /\ _determine_difficulty "Q" (PyStr.repeat_char "x" 201) = "hard"
  /\ _determine_difficulty "Q" (PyStr.repeat_char "x" 101) = "medium"
  /\ _determine_difficulty "Q" (PyStr.repeat_char "x" 100) = "easy".
Proof.
  split; [| repeat split; vm_compute; reflexivity].
  intros name def.
  unfold _determine_difficulty, reference_difficulty.
  rewrite (scan_keywords_find name def _ difficulty_map_lowercase).
  destruct (find (keyword_matches name def) difficulty_map) as [[kw d]|]; simpl.
  - reflexivity.
  - rewrite (len_threshold 200), (len_threshold 100). reflexivity.
Qed.

End DifficultyFacts.

(** ** The template generator *)

Section TemplateFacts.
Import Models TemplateLabGenerator Invariants.

(** What [_create_exercises] builds, for any difficulty string. *)
Lemma _create_exercises_spec concept_name difficulty ctx :
  exists es,
    _create_exercises concept_name difficulty ctx = inr es
    /\ map kind_and_hints es
       = ("guided", if String.eqb difficulty "easy" then 3%Z else 2%Z)
         :: (if String.eqb difficulty "medium" || String.eqb difficulty "hard"
             then [("challenge", 1%Z)] else []).
Proof.
  unfold _create_exercises, LabExercise_init, exercise_ok.
  cbn [type hints mem exercise_types existsb].
  destruct (String.eqb difficulty "easy"); cbn;
    destruct (String.eqb difficulty "medium"); cbn;
      try (eexists; split; reflexivity);
      destruct (String.eqb difficulty "hard"); cbn;
        eexists; split; reflexivity.
Qed.

(** The [try] block always runs to its [return]. *)
Lemma generate_lab_try_success concept_name concept_definition topic ctx :
  let d := _determine_difficulty concept_name concept_definition in
  exists r s,
    generate_lab_try concept_name concept_definition topic ctx = inr r
    /\ success r = true
    /\ error r = None
    /\ sections (lab r) = [s]
    /\ difficulty (lab r) = d
    /\ estimated_time (lab r) = _estimate_time d 1
    /\ section_difficulty s = d
    /\ scaffolding_level s = "medium"
    /\ _create_exercises concept_name d ctx = inr (exercises s).
Proof.
  intros d; subst d; unfold generate_lab_try.
  destruct (_determine_difficulty_cases concept_name concept_definition)
    as [H|[H|H]]; rewrite H; cbn;
    do 2 eexists; repeat split; reflexivity.
Qed.

Lemma generate_lab_returns concept_name concept_definition topic ctx :
  generate_lab concept_name concept_definition topic ctx
  = generate_lab_try concept_name concept_definition topic ctx.
Proof.
  unfold generate_lab.
  destruct (generate_lab_try_success concept_name concept_definition topic ctx)
    as (r & s & -> & _). reflexivity.
Qed.

(** Facts about kinds and hint counts carry over to the exercises. *)
Lemma Forall_kind_and_hints (P : string * Z -> Prop) es :
  Forall P (map kind_and_hints es) -> Forall (fun e => P (kind_and_hints e)) es.
Proof.
  induction es as [|e es IH]; simpl; intros H; constructor;
    inversion H; subst; auto.
Qed.

Lemma template_exercises_invariant concept_name difficulty ctx es :
  _create_exercises concept_name difficulty ctx = inr es ->
  (1 <= List.length es)%nat
  /\ Forall exercise_invariant es
  /\ Forall (fun e => type e <> "exploration") es.
Proof.
  intros Hes.
  destruct (_create_exercises_spec concept_name difficulty ctx) as (es' & Heq & Hmap).
  rewrite Hes in Heq; injection Heq as <-.
  assert (Hlen : List.length es = List.length (map kind_and_hints es))
    by (symmetry; apply length_map).
  assert (Hall : Forall (fun p : string * Z =>
                           ((0 <= snd p <= 5)%Z
                            /\ In (fst p) ["guided"; "challenge"; "exploration"])
                           /\ fst p <> "exploration")
                        (map kind_and_hints es)).
  { rewrite Hmap.
    destruct (String.eqb difficulty "easy");
      destruct (String.eqb difficulty "medium" || String.eqb difficulty "hard");
      repeat constructor; simpl; auto; try lia; discriminate. }
  rewrite Hmap in Hlen.
  split; [rewrite Hlen; simpl; lia|].
  apply Forall_kind_and_hints in Hall.
  split; eapply Forall_impl; try exact Hall; simpl; intros e He; apply He.
Qed.

Lemma _create_minimal_lab_invariant concept_name topic :
  exists l s e,
    _create_minimal_lab concept_name topic = inr l
    /\ lab_invariant l
    /\ sections l = [s] /\ exercises s = [e]
    /\ kind_and_hints e = ("guided", 3%Z)
    /\ difficulty l = "medium" /\ estimated_time l = 45%Z.
Proof.
  do 3 eexists. split; [reflexivity|].
  unfold lab_invariant, section_invariant, exercise_invariant; simpl.
  repeat split; repeat constructor; simpl; auto; lia.
Qed.

(** C7: the single section of a template lab holds one guided exercise,
    with 3 hints at difficulty easy and 2 otherwise, followed, exactly at
    difficulty medium or hard, by one challenge exercise with 1 hint; no
    exploration exercise occurs. *)
Theorem C7_template_exercises concept_name concept_definition topic ctx :
  let d := _determine_difficulty concept_name concept_definition in
  exists r s,
    generate_lab concept_name concept_definition topic ctx = inr r
    /\ success r = true
    /\ sections (lab r) = [s]
    /\ section_difficulty s = d
    /\ map kind_and_hints (exercises s)
       = ("guided", if String.eqb d "easy" then 3%Z else 2%Z)
         :: (if String.eqb d "medium" || String.eqb d "hard"
             then [("challenge", 1%Z)] else [])
    /\ Forall (fun e => type e <> "exploration") (exercises s).
Proof.
  intros d. rewrite generate_lab_returns.
  destruct (generate_lab_try_success concept_name concept_definition topic ctx)
    as (r & s & Hr & Hok & _ & Hs & _ & _ & Hd & _ & Hes).
  fold d in Hd, Hes.
  exists r, s. repeat split; auto.
  - destruct (_create_exercises_spec concept_name d ctx) as (es & Heq & Hmap).
    rewrite Hes in Heq; injection Heq as <-. exact Hmap.
  - apply (template_exercises_invariant _ _ _ _ Hes).
Qed.

(** C4: on every input the template generator returns a result and
    raises nothing; an exception [e] raised inside the [try] block is
    caught, and the handler answers with [success = false], the
    description of [e] as error and the minimal fallback lab. *)
Theorem C4_template_generate_total concept_name concept_definition topic ctx :
  (exists r, generate_lab concept_name concept_definition topic ctx = inr r)
  /\ (forall e : Exception,
        exists fallback,
          _create_minimal_lab concept_name topic = inr fallback
          /\ try_except (inl e)
               (generate_lab_except concept_name concept_definition topic)
             = inr {| lab := fallback;
                      metadata := {| Models.concept_name := concept_name;
                                     Models.concept_definition := concept_definition;
                                     source_topic := topic;
                                     model_used := Some "template";
                                     personalization_applied := false |};
                      success := false;
                      error := Some (exc_str e) |}).
Proof.
  split.
  - rewrite generate_lab_returns.
    destruct (generate_lab_try_success concept_name concept_definition topic ctx)
      as (r & _ & Hr & _). exists r; exact Hr.
  - intros e. eexists; split; reflexivity.
Qed.

(** C10: the lab of a template result has at least one section, every
    section at least one exercise, every hint count in [0, 5], every
    kind among guided, challenge and exploration, and estimated minutes
    in [15, 180]; the same holds of the lab that the exception handler
    returns. *)
Theorem C10_template_structural_invariant concept_name concept_definition topic ctx :
  (exists r,
      generate_lab concept_name concept_definition topic ctx = inr r
      /\ lab_invariant (lab r))
  /\ (forall e : Exception,
        exists r,
          generate_lab_except concept_name concept_definition topic e = inr r
          /\ success r = false
          /\ lab_invariant (lab r)).
Proof.
  split.
  - rewrite generate_lab_returns.
    destruct (generate_lab_try_success concept_name concept_definition topic ctx)
      as (r & s & Hr & _ & _ & Hs & Hd & Ht & Hsd & Hsc & Hes).
    exists r; split; [exact Hr|].
    destruct (template_exercises_invariant _ _ _ _ Hes) as (Hlen & Hinv & _).
    unfold lab_invariant. rewrite Hs, Hd, Ht.
    assert (Hlevels : In (_determine_difficulty concept_name concept_definition)
                         ["easy"; "medium"; "hard"]
                      /\ (15 <= _estimate_time
                                  (_determine_difficulty concept_name concept_definition) 1
                           <= 180)%Z).
    { destruct (_determine_difficulty_cases concept_name concept_definition)
        as [H|[H|H]]; rewrite H; simpl; split; auto; vm_compute; intuition discriminate. }
    destruct Hlevels as [Hin Htime].
    repeat split; auto; try apply Htime.
    constructor; [|constructor].
    unfold section_invariant. rewrite Hsd, Hsc. simpl; auto 10.
  - intros e.
    destruct (_create_minimal_lab_invariant concept_name topic)
      as (l & _ & _ & Hl & Hinv & _).
    unfold generate_lab_except. rewrite Hl. cbn.
    eexists; repeat split; try reflexivity; apply Hinv.
Qed.

End TemplateFacts.

(** ** Filename sanitisation *)

Section SanitizeFacts.
Import FileUtils Invariants.

Lemma prefix_of_refl s : prefix_of s s.
Proof.
  unfold prefix_of; induction s as [|c s IH]; simpl; [reflexivity|].
  rewrite Ascii.eqb_refl; exact IH.
Qed.

Lemma prefix_of_cons p s a b :
  prefix_of (String a p) (String b s) -> a = b /\ prefix_of p s.
Proof.
  unfold prefix_of; simpl; intros H.
  apply andb_true_iff in H as [Hab Hp].
  apply Ascii.eqb_eq in Hab; auto.
Qed.

Lemma prefix_of_length p : forall s,
  prefix_of p s -> (String.length p <= String.length s)%nat.
Proof.
  induction p as [|a p IH]; intros [|b s] H; simpl; try lia.
  - discriminate H.
  - apply prefix_of_cons in H as [_ H]. apply IH in H. lia.
Qed.

Lemma prefix_of_all_kept p : forall s,
  prefix_of p s -> all_kept s = true -> all_kept p = true.
Proof.
  induction p as [|a p IH]; intros [|b s] H Hs; simpl in *; auto.
  - discriminate H.
  - apply prefix_of_cons in H as [<- H].
    apply andb_true_iff in Hs as [Ha Hs].
    rewrite Ha; simpl; eauto.
Qed.

Lemma prefix_of_starts_with_underscore p s :
  prefix_of p s -> starts_with_underscore p = true -> starts_with_underscore s = true.
Proof.
  destruct p as [|a p], s as [|b s]; simpl; intros H Hp; try discriminate.
  apply prefix_of_cons in H as [<- _]; exact Hp.
Qed.

Lemma prefix_of_no_double p : forall s,
  prefix_of p s -> no_double_underscore s = true -> no_double_underscore p = true.
Proof.
  induction p as [|a p IH]; intros [|b s] H Hs; simpl in *; auto.
  - discriminate H.
  - apply prefix_of_cons in H as [<- H].
    apply andb_true_iff in Hs as [Ha Hs].
    rewrite (IH _ H Hs), andb_true_r.
    destruct (Ascii.eqb a underscore); simpl in *; auto.
    destruct (starts_with_underscore p) eqn:Hp; auto.
    rewrite (prefix_of_starts_with_underscore _ _ H Hp) in Ha; discriminate.
Qed.

Lemma take_prefix n : forall s, prefix_of (take n s) s.
Proof.
  induction n as [|n IH]; intros [|c s]; simpl; try reflexivity.
  unfold prefix_of; simpl. rewrite Ascii.eqb_refl. apply IH.
Qed.

Lemma take_length n : forall s, (String.length (take n s) <= n)%nat.
Proof.
  induction n as [|n IH]; intros [|c s]; simpl; try lia.
  specialize (IH s); lia.
Qed.

Lemma rstrip_prefix chars s : prefix_of (rstrip chars s) s.
Proof.
  induction s as [|c s IH]; simpl; [reflexivity|].
  destruct (rstrip chars s) as [|d r] eqn:Hr.
  - destruct (char_in c chars); [reflexivity|].
    unfold prefix_of; simpl. rewrite Ascii.eqb_refl; reflexivity.
  - unfold prefix_of; simpl. rewrite Ascii.eqb_refl; exact IH.
Qed.

Lemma rstrip_idempotent chars s :
  rstrip chars (rstrip chars s) = rstrip chars s.
Proof.
  induction s as [|c s IH]; simpl; [reflexivity|].
  destruct (rstrip chars s) as [|d r] eqn:Hr.
  - destruct (char_in c chars) eqn:Hc; simpl; [reflexivity|].
    rewrite Hc; reflexivity.
  - change (rstrip chars (String c (String d r)))
      with (match rstrip chars (String d r) with
            | EmptyString =>
                if char_in c chars then EmptyString else String c EmptyString
            | String _ _ as r0 => String c r0
            end).
    rewrite IH; reflexivity.
Qed.

Lemma remove_invalid_all_kept s : all_kept (remove_invalid s) = true.
Proof.
  induction s as [|c s IH]; simpl; [reflexivity|].
  destruct (is_kept c) eqn:Hc; simpl; [rewrite Hc|]; exact IH.
Qed.

Lemma starts_with_underscore_collapse s :
  starts_with_underscore (collapse_underscores s) = starts_with_underscore s.
Proof.
  induction s as [|c s IH]; simpl; [reflexivity|].
  destruct (Ascii.eqb c underscore) eqn:Hc; simpl; [|exact Hc].
  destruct (starts_with_underscore s) eqn:Hs; simpl; [exact IH | exact Hc].
Qed.

Lemma collapse_all_kept s :
  all_kept s = true -> all_kept (collapse_underscores s) = true.
Proof.
  induction s as [|c s IH]; simpl; [reflexivity|]; intros H.
  apply andb_true_iff in H as [Hc Hs].
  destruct (Ascii.eqb c underscore && starts_with_underscore s); simpl; auto.
  rewrite Hc; simpl; auto.
Qed.

Lemma collapse_no_double s : no_double_underscore (collapse_underscores s) = true.
Proof.
  induction s as [|c s IH]; simpl; [reflexivity|].
  destruct (Ascii.eqb c underscore && starts_with_underscore s) eqn:Hc; simpl; auto.
  rewrite starts_with_underscore_collapse, Hc; simpl; exact IH.
Qed.

(** On a string that is already clean each rewriting step changes
    nothing. *)
Lemma replace_spaces_clean s : all_kept s = true -> replace_spaces s = s.
Proof.
  induction s as [|c s IH]; simpl; [reflexivity|]; intros H.
  apply andb_true_iff in H as [Hc Hs]. rewrite (IH Hs).
  destruct (Ascii.eqb c space) eqn:Hsp; [|reflexivity].
  apply Ascii.eqb_eq in Hsp; subst c; discriminate Hc.
Qed.

Lemma remove_invalid_clean s : all_kept s = true -> remove_invalid s = s.
Proof.
  induction s as [|c s IH]; simpl; [reflexivity|]; intros H.
  apply andb_true_iff in H as [Hc Hs]. rewrite Hc, (IH Hs); reflexivity.
Qed.

Lemma collapse_clean s :
  no_double_underscore s = true -> collapse_underscores s = s.
Proof.
  induction s as [|c s IH]; simpl; [reflexivity|]; intros H.
  apply andb_true_iff in H as [Hc Hs]. rewrite (IH Hs).
  apply negb_true_iff in Hc; rewrite Hc; reflexivity.
Qed.

(** The truncation step yields a prefix that fits the maximum length. *)
Lemma truncate_spec s (max_length : Z) :
  (0 <= max_length)%Z ->
  let t := if (PyStr.len s >? max_length)%Z then slice_to s max_length else s in
  prefix_of t s /\ (PyStr.len t <= max_length)%Z.
Proof.
  intros Hm; simpl.
  destruct (Z.gtb_spec (PyStr.len s) max_length) as [Hgt|Hle].
  - unfold slice_to. destruct (Z.leb_spec 0 max_length); [|lia].
    split; [apply take_prefix|].
    unfold PyStr.len. pose proof (take_length (Z.to_nat max_length) s). lia.
  - split; [apply prefix_of_refl | exact Hle].
Qed.

(** Sanitisation is idempotent for every non-negative maximum length. *)
Lemma sanitize_filename_idempotent name (max_length : Z) :
  (0 <= max_length)%Z ->
  sanitize_filename (sanitize_filename name max_length) max_length
  = sanitize_filename name max_length.
Proof.
  intros Hm.
  set (y := sanitize_filename name max_length).
  set (c := collapse_underscores (remove_invalid (replace_spaces name))).
  destruct (truncate_spec c max_length Hm) as [Hpre Hlen].
  set (t := if (PyStr.len c >? max_length)%Z then slice_to c max_length else c) in *.
  assert (Hy : y = rstrip "_." t) by reflexivity.
  assert (Hyt : prefix_of y t) by (rewrite Hy; apply rstrip_prefix).
  assert (Hkept : all_kept y = true).
  { apply (prefix_of_all_kept _ _ Hyt), (prefix_of_all_kept _ _ Hpre).
    apply collapse_all_kept, remove_invalid_all_kept. }
  assert (Hnd : no_double_underscore y = true).
  { apply (prefix_of_no_double _ _ Hyt), (prefix_of_no_double _ _ Hpre).
    apply collapse_no_double. }
  assert (Hylen : (PyStr.len y <= max_length)%Z).
  { apply prefix_of_length in Hyt. unfold PyStr.len in *. lia. }
  unfold sanitize_filename at 1.
  rewrite (replace_spaces_clean y Hkept), (remove_invalid_clean y Hkept),
    (collapse_clean y Hnd).
  destruct (Z.gtb_spec (PyStr.len y) max_length); [lia|].
  rewrite Hy. apply rstrip_idempotent.
Qed.

(** C8: sanitising a sanitised name changes nothing, and "CAP Theorem!!"
    becomes "CAP_Theorem". *)
Theorem C8_sanitize_idempotent :
  (forall x, sanitize (sanitize x) = sanitize x)
  /\ sanitize "CAP Theorem!!" = "CAP_Theorem".
Proof.
  split; [|reflexivity].
  intros x; unfold sanitize.
  apply sanitize_filename_idempotent; unfold default_max_length; lia.
Qed.

End SanitizeFacts.

(** ** The concept source reader *)

Section ReaderFacts.
Import FileUtils Invariants Samples.

Lemma concept_entry_object (th c : dict) :
  concept_entry (dict_get th "topic" (JStr "Unknown")) (JObj c)
  = inr (flat_record th c).
Proof.
  unfold concept_entry, flat_record, dict_get; simpl.
  destruct (dict_lookup "topic" th); reflexivity.
Qed.

(** The inner loop appends one record per concept, in order. *)
Lemma for_concepts_objects (th : dict) (cs : list dict) : forall concepts,
  for_concepts (dict_get th "topic" (JStr "Unknown")) (map JObj cs) concepts
  = inr (concepts ++ map (flat_record th) cs)%list.
Proof.
  induction cs as [|c cs IH]; intros concepts; cbn [map for_concepts].
  - rewrite app_nil_r; reflexivity.
  - rewrite concept_entry_object; cbn [bind].
    rewrite IH, <- app_assoc; reflexivity.
Qed.

(** The outer loop does so theory by theory. *)
Lemma for_theories_objects (theories : list (dict * list dict)) :
  Forall lists_concepts theories ->
  forall concepts,
    for_theories (map (fun tc => JObj (fst tc)) theories) concepts
    = inr (concepts ++ flat_records theories)%list.
Proof.
  induction 1 as [|[th cs] theories Hth _ IH]; intros concepts;
    cbn [map for_theories fst].
  - rewrite app_nil_r; reflexivity.
  - unfold lists_concepts in Hth; cbn [fst snd] in Hth.
    cbn [py_get bind ret]. rewrite Hth. cbn [py_iter bind ret].
    rewrite for_concepts_objects. cbn [bind].
    rewrite IH, <- app_assoc; reflexivity.
Qed.

(** C5, as amended: the reader returns one record per concept, theory by
    theory and concept by concept in the order of the source; a record
    holds the four keys name, definition, topic and text_evidence (the
    evidence is kept, with the empty string when the concept has none),
    and the topic of a theory without topic field is "Unknown". *)
Theorem C5_reader_flattens_in_order (doc : dict) (theories : list (dict * list dict)) :
  dict_get doc "theories" (JArr []) = JArr (map (fun tc => JObj (fst tc)) theories) ->
  Forall lists_concepts theories ->
  load_concepts_from_export (JObj doc) = inr (flat_records theories)
  /\ Forall (fun r => dict_keys r = ["name"; "definition"; "topic"; "text_evidence"])
            (flat_records theories)
  /\ Forall (fun tc =>
               dict_lookup "topic" (fst tc) = None ->
               Forall (fun r => dict_lookup "topic" r = Some (JStr "Unknown"))
                      (map (flat_record (fst tc)) (snd tc)))
            theories.
Proof.
  intros Hdoc Hths. split; [|split].
  - unfold load_concepts_from_export; simpl. rewrite Hdoc; simpl.
    apply (for_theories_objects theories Hths []).
  - unfold flat_records. apply Forall_flat_map, Forall_forall.
    intros tc _. apply Forall_map, Forall_forall. reflexivity.
  - apply Forall_forall. intros [th cs] _ Hnone; simpl in *.
    apply Forall_map, Forall_forall. intros c _.
    unfold flat_record; simpl. rewrite Hnone; reflexivity.
Qed.

(** The amended C5 at the sample export. *)
Lemma C5_reader_witness :
  load_concepts_from_export sample_export
  = inr (flat_records
           [ ([ ("topic", JStr "NoSQL Databases");
                ("concepts", JArr [
                   JObj [ ("name", JStr "CAP Theorem");
                          ("definition",
                           JStr "Consistency, Availability, Partition tolerance");
                          ("text_evidence", JStr "as stated in the lecture notes") ] ]) ],
              [ [ ("name", JStr "CAP Theorem");
                  ("definition", JStr "Consistency, Availability, Partition tolerance");
                  ("text_evidence", JStr "as stated in the lecture notes") ] ]) ]).
Proof.
  refine (proj1 (C5_reader_flattens_in_order _ _ _ _)).
  - reflexivity.
  - repeat constructor.
Defined.

(** C5, as stated, fails: the record produced for the sample export
    still carries the evidence of its concept, so it does not consist
    of name, definition and topic only. *)
Lemma C5_text_evidence_kept :
  exists r,
    load_concepts_from_export sample_export = inr [r]
    /\ dict_lookup "text_evidence" r = Some (JStr "as stated in the lecture notes")
    /\ dict_keys r <> ["name"; "definition"; "topic"].
Proof.
  eexists. split; [reflexivity|]. split; [reflexivity | discriminate].
Qed.

End ReaderFacts.

(** ** Serialisation round trip *)

Section RoundTripFacts.
Import Models Pydantic Organizer Invariants Samples.

Lemma mapM_map_inr {A B : Type} (f : B -> result A) (g : A -> B) (l : list A) :
  Forall (fun a => f (g a) = inr a) l -> mapM f (map g l) = inr l.
Proof.
  induction 1 as [|a l Ha _ IH]; simpl; [reflexivity|].
  rewrite Ha; simpl. rewrite IH; reflexivity.
Qed.

Lemma as_list_strs m (l : list string) :
  as_list m (as_str m) (dump_strs l) = inr l.
Proof.
  apply mapM_map_inr, Forall_forall; reflexivity.
Qed.

Lemma as_list_dicts m (l : list dict) :
  as_list m (as_dict m) (dump_dicts l) = inr l.
Proof.
  apply mapM_map_inr, Forall_forall; reflexivity.
Qed.

(** An optional field survives dumping and validation, whatever the
    other fields of the dictionary are. *)
Lemma optional_found {A : Type} (item : json -> result A) (f : A -> json)
      (d : dict) key (o : option A) :
  dict_lookup key d = Some (dump_optional f o) ->
  (forall a, f a <> JNull) ->
  (forall a, item (f a) = inr a) ->
  optional d key item = inr o.
Proof.
  intros Hd Hnull Hitem. unfold optional. rewrite Hd.
  destruct o as [a|]; simpl; [|reflexivity].
  specialize (Hnull a). specialize (Hitem a).
  destruct (f a); try congruence; rewrite Hitem; reflexivity.
Qed.

(** Rewrites the validation of the optional field dumped through [f]. *)
Ltac optional_field f item_ok :=
  erewrite (optional_found _ f); [|reflexivity|discriminate|item_ok]; cbn [bind].

Lemma LabExercise_roundtrip (e : LabExercise) :
  exercise_ok e = true ->
  LabExercise_validate (LabExercise_model_dump e) = inr e.
Proof.
  intros Hok. destruct e as [ty h de st so tc].
  unfold LabExercise_validate, LabExercise_model_dump.
  cbn [Models.type Models.hints Models.description Models.starter_code
       Models.solution Models.test_cases].
  unfold required at 1 2. cbn [dict_lookup String.eqb Ascii.eqb Bool.eqb as_str as_int bind ret].
  optional_field JStr ltac:(reflexivity).
  optional_field JStr ltac:(reflexivity).
  optional_field JStr ltac:(reflexivity).
  optional_field dump_dicts ltac:(apply as_list_dicts).
  unfold LabExercise_init. rewrite Hok. reflexivity.
Qed.

Lemma LabSection_roundtrip (s : LabSection) :
  section_ok s = true ->
  LabSection_validate (LabSection_model_dump s) = inr s.
Proof.
  intros Hok. apply andb_true_iff in Hok as [Hfields Hexs].
  destruct s as [co ti di sc exs lo bg].
  unfold LabSection_validate, LabSection_model_dump.
  cbn [Models.concept Models.section_title Models.section_difficulty
       Models.scaffolding_level Models.exercises Models.learning_objectives
       Models.background] in *.
  unfold required. cbn [dict_lookup String.eqb Ascii.eqb Bool.eqb as_str as_list bind ret].
  rewrite (mapM_map_inr _ (fun e => JObj (LabExercise_model_dump e)) exs).
  2:{ rewrite forallb_forall in Hexs. apply Forall_forall. intros e He.
      cbn [as_dict bind ret]. apply LabExercise_roundtrip, Hexs, He. }
  cbn [bind].
  optional_field dump_strs ltac:(apply as_list_strs).
  optional_field JStr ltac:(reflexivity).
  unfold LabSection_init. rewrite Hfields. reflexivity.
Qed.

Lemma PersonalizedLab_roundtrip (l : PersonalizedLab) :
  lab_ok l = true ->
  PersonalizedLab_validate (PersonalizedLab_model_dump l) = inr l.
Proof.
  intros Hok. apply andb_true_iff in Hok as [Hfields Hsecs].
  destruct l as [ti tp di et secs pr te pc].
  unfold PersonalizedLab_validate, PersonalizedLab_model_dump.
  cbn [Models.title Models.topic Models.difficulty Models.estimated_time
       Models.sections Models.prerequisites Models.technologies
       Models.personalization_context] in *.
  unfold required.
  cbn [dict_lookup String.eqb Ascii.eqb Bool.eqb as_str as_int as_list bind ret].
  rewrite (mapM_map_inr _ (fun s => JObj (LabSection_model_dump s)) secs).
  2:{ rewrite forallb_forall in Hsecs. apply Forall_forall. intros s Hs.
      cbn [as_dict bind ret]. apply LabSection_roundtrip, Hsecs, Hs. }
  cbn [bind].
  optional_field dump_strs ltac:(apply as_list_strs).
  optional_field dump_strs ltac:(apply as_list_strs).
  optional_field JStr ltac:(reflexivity).
  unfold PersonalizedLab_init. rewrite Hfields. reflexivity.
Qed.

Lemma read_json_latest path data fs :
  read_json path (write_json path data fs) = Some data.
Proof.
  unfold write_json; simpl. rewrite String.eqb_refl; reflexivity.
Qed.

(** C9: after a result has been written out as the full and the
    simplified file, reading the simplified file back and validating it
    as a lab gives the lab of the result, field for field. *)
Theorem C9_simplified_file_roundtrip (lab_result : CompleteLabResult)
        (output_dir concept_name : string) (fs : FileSystem) :
  lab_ok (lab lab_result) = true ->
  exists files fs' path,
    organize_lab_output lab_result output_dir concept_name fs = (files, fs')
    /\ saved_path "simplified_file" files = Some path
    /\ load_lab path fs' = Some (inr (lab lab_result)).
Proof.
  intros Hok. unfold organize_lab_output, save_lab_json.
  do 3 eexists. split; [reflexivity|]. split; [reflexivity|].
  unfold load_lab. rewrite read_json_latest.
  rewrite (PersonalizedLab_roundtrip _ Hok). reflexivity.
Qed.

(** C9 at the sample result, written below an output directory of an
    empty file system. *)
Lemma C9_roundtrip_witness :
  exists files fs' path,
    organize_lab_output sample_result "test_output" "CAP Theorem" [] = (files, fs')
    /\ saved_path "simplified_file" files = Some path
    /\ load_lab path fs' = Some (inr sample_lab).
Proof.
  apply (C9_simplified_file_roundtrip sample_result "test_output" "CAP Theorem" []).
  reflexivity.
Defined.

End RoundTripFacts.

(** ** The prompted generator *)

Section ServiceFacts.
Import Models Pydantic LabGenerationService Invariants Samples.

Lemma _create_fallback_lab_invariant concept_name topic :
  exists l s e,
    _create_fallback_lab concept_name topic = inr l
    /\ lab_invariant l
    /\ sections l = [s] /\ exercises s = [e] /\ concept s = concept_name
    /\ kind_and_hints e = ("guided", 3%Z)
    /\ difficulty l = "medium" /\ estimated_time l = 45%Z.
Proof.
  do 3 eexists. split; [reflexivity|].
  unfold lab_invariant, section_invariant, exercise_invariant; simpl.
  repeat split; repeat constructor; simpl; auto; lia.
Qed.

(** On success the flag records that a context was passed at all. *)
Lemma personalization_flag_on_success parser_parse model_name
      concept_name concept_definition topic ctx response r :
  generate_lab_try parser_parse model_name concept_name concept_definition topic
                   ctx response = inr r ->
  success r = true
  /\ personalization_applied (metadata r)
     = match ctx with Some _ => true | None => false end.
Proof.
  unfold generate_lab_try.
  destruct response as [e|content]; [discriminate|]; cbn [bind].
  destruct (parser_parse content) as [e|lab_data]; [discriminate|]; cbn [bind].
  destruct (match lab_data with
            | JObj kwargs => PersonalizedLab_validate kwargs
            | _ => raise (TypeError "argument after ** must be a mapping")
            end) as [e|l]; [discriminate|]; cbn.
  intros H; injection H as <-; split; reflexivity.
Qed.

(** An empty context adds nothing to the prompt. *)
Lemma empty_context_prompt concept_name concept_definition topic :
  _create_lab_prompt concept_name concept_definition topic (Some EmptyString)
  = _create_lab_prompt concept_name concept_definition topic None.
Proof.
  reflexivity.
Qed.

(** C3, as amended: when the call of the service, the parsing of its
    answer or the validation of the parsed lab raises [e], the generator
    returns a result with [success = false], the description of [e] as
    error (non-empty when that description is) and the fallback lab: one
    section, one guided exercise with 3 hints, difficulty medium, 45
    minutes.  That lab meets the constraints of the models, and its
    section is named when the input concept name is non-empty.  The
    service has been called once, with the prompt of the concept. *)
Theorem C3_prompted_fallback (World : Type)
        (llm_invoke : string -> World -> result string * World)
        (parser_parse : string -> result json) (model_name : string)
        (concept_name concept_definition topic : string) (ctx : option string)
        (s : Session World) (e : Exception) :
  let prompt := _create_lab_prompt concept_name concept_definition topic ctx in
  generate_lab_try parser_parse model_name concept_name concept_definition topic ctx
                   (fst (llm_invoke prompt (world s))) = inl e ->
  exists r s' sec ex,
    generate_lab llm_invoke parser_parse model_name
                 concept_name concept_definition topic ctx s = (inr r, s')
    /\ success r = false
    /\ error r = Some (exc_str e)
    /\ (exc_str e <> EmptyString -> error r <> Some EmptyString)
    /\ _create_fallback_lab concept_name topic = inr (lab r)
    /\ sections (lab r) = [sec] /\ exercises sec = [ex]
    /\ kind_and_hints ex = ("guided", 3%Z)
    /\ difficulty (lab r) = "medium" /\ estimated_time (lab r) = 45%Z
    /\ lab_invariant (lab r)
    /\ (concept_name <> EmptyString -> named_sections (lab r))
    /\ prompts_sent s' = (prompts_sent s ++ [prompt])%list.
Proof.
  intros prompt Hfail.
  destruct (_create_fallback_lab_invariant concept_name topic)
    as (l & sec & ex & Hl & Hinv & Hsec & Hex & Hname & Hkind & Hd & Ht).
  unfold generate_lab, invoke. fold prompt.
  destruct (llm_invoke prompt (world s)) as [response w]; cbn [fst] in Hfail.
  rewrite Hfail. cbn [try_except]. unfold generate_lab_except.
  rewrite Hl. cbn [bind LabGenerationMetadata_init CompleteLabResult_init ret].
  eexists; eexists; exists sec, ex.
  split; [reflexivity|]. cbn [success error lab prompts_sent].
  split; [reflexivity|].
  split; [reflexivity|].
  split; [intros Hne Heq; injection Heq as Heq; auto|].
  split; [reflexivity|].
  split; [exact Hsec|].
  split; [exact Hex|].
  split; [exact Hkind|].
  split; [exact Hd|].
  split; [exact Ht|].
  split; [exact Hinv|].
  split; [|reflexivity].
  intros Hne. unfold named_sections. rewrite Hsec.
  constructor; [rewrite Hname; exact Hne | constructor].
Qed.

(** The amended C3 at a service that times out with a message. *)
Lemma C3_prompted_fallback_witness :
  exists r s' sec ex,
    generate_lab (failing_llm (mkException "TimeoutError" "Request timed out."))
                 (canned_parser JNull) "gpt-4"
                 "CAP Theorem" "Consistency, availability, partition tolerance"
                 "NoSQL Databases" (Some "music") new_session = (inr r, s')
    /\ success r = false
    /\ error r = Some "Request timed out."
    /\ ("Request timed out." <> EmptyString -> error r <> Some EmptyString)
    /\ _create_fallback_lab "CAP Theorem" "NoSQL Databases" = inr (lab r)
    /\ sections (lab r) = [sec] /\ exercises sec = [ex]
    /\ kind_and_hints ex = ("guided", 3%Z)
    /\ difficulty (lab r) = "medium" /\ estimated_time (lab r) = 45%Z
    /\ lab_invariant (lab r)
    /\ ("CAP Theorem" <> EmptyString -> named_sections (lab r))
    /\ prompts_sent s'
       = [_create_lab_prompt "CAP Theorem"
            "Consistency, availability, partition tolerance"
            "NoSQL Databases" (Some "music")].
Proof.
  apply (C3_prompted_fallback unit
           (failing_llm (mkException "TimeoutError" "Request timed out."))
           (canned_parser JNull) "gpt-4"
           "CAP Theorem" "Consistency, availability, partition tolerance"
           "NoSQL Databases" (Some "music") new_session
           (mkException "TimeoutError" "Request timed out.")).
  reflexivity.
Defined.

(** C3, as stated, fails: for the concept with the empty name and a
    service whose exception has an empty description, the error message
    of the result is empty and the section of the fallback lab has no
    concept name. *)
Lemma C3_empty_error_message :
  exists r s',
    generate_lab (failing_llm (mkException "TimeoutError" EmptyString))
                 (canned_parser JNull) "gpt-4"
                 EmptyString "a concept without name" "NoSQL Databases" None
                 new_session = (inr r, s')
    /\ success r = false
    /\ error r = Some EmptyString
    /\ ~ named_sections (lab r).
Proof.
  do 2 eexists. split; [reflexivity|]. cbn.
  repeat split.
  unfold named_sections; cbn. intros H; inversion H as [|sec rest Hsec Hrest]; subst.
  apply Hsec; reflexivity.
Qed.

(** C6 at the empty context: the service answers with a valid lab, the
    result is marked as personalised, yet the prompt that was sent is
    the one of a call without context. *)
Theorem C6_empty_context_marked_applied :
  let run :=
    generate_lab (canned_llm "a lab in JSON")
                 (canned_parser (JObj (PersonalizedLab_model_dump sample_lab))) "gpt-4"
                 "CAP Theorem" "Consistency, availability, partition tolerance"
                 "NoSQL Databases" (Some EmptyString) new_session in
  exists r,
    fst run = inr r
    /\ success r = true
    /\ lab r = sample_lab
    /\ personalization_applied (metadata r) = true
    /\ prompts_sent (snd run)
       = [_create_lab_prompt "CAP Theorem"
            "Consistency, availability, partition tolerance"
            "NoSQL Databases" None].
Proof.
  eexists. repeat split; vm_compute; reflexivity.
Qed.

End ServiceFacts.

(** * Further properties *)

(** ** What a sanitised name looks like *)

Section SafeNameFacts.
Import FileUtils Invariants SafeNames.

Lemma slice_to_prefix s (stop : Z) : prefix_of (slice_to s stop) s.
Proof.
  unfold slice_to. destruct (0 <=? stop)%Z; apply take_prefix.
Qed.

Lemma prefix_of_trans p : forall q s,
  prefix_of p q -> prefix_of q s -> prefix_of p s.
Proof.
  induction p as [|a p IH]; intros [|b q] [|d s] H1 H2;
    try reflexivity; try discriminate.
  apply prefix_of_cons in H1 as [<- H1]. apply prefix_of_cons in H2 as [<- H2].
  unfold prefix_of; simpl. rewrite Ascii.eqb_refl. exact (IH _ _ H1 H2).
Qed.

Lemma last_char_rstrip chars s c :
  last_char (rstrip chars s) = Some c -> char_in c chars = false.
Proof.
  revert c; induction s as [|a s IH]; intros c; simpl; [discriminate|].
  destruct (rstrip chars s) as [|d r] eqn:Hr.
  - destruct (char_in a chars) eqn:Ha; simpl; [discriminate|].
    intros H; injection H as <-; exact Ha.
  - intros H. apply IH. exact H.
Qed.

Lemma rstrip_fixed_no_trailing chars s :
  (forall c, last_char s = Some c -> char_in c chars = false) ->
  rstrip chars s = s.
Proof.
  induction s as [|a s IH]; intros H; simpl; [reflexivity|].
  destruct s as [|b s].
  - simpl. rewrite (H a eq_refl). reflexivity.
  - rewrite IH; [reflexivity|]. intros c Hc. apply H. exact Hc.
Qed.

(** The steps up to the truncation, and what they guarantee. *)
Lemma cleaned_name_spec name :
  let c := collapse_underscores (remove_invalid (replace_spaces name)) in
  all_kept c = true /\ no_double_underscore c = true.
Proof.
  split; [apply collapse_all_kept, remove_invalid_all_kept | apply collapse_no_double].
Qed.

Lemma sanitize_filename_prefix name (max_length : Z) :
  prefix_of (sanitize_filename name max_length)
            (collapse_underscores (remove_invalid (replace_spaces name))).
Proof.
  unfold sanitize_filename.
  set (c := collapse_underscores (remove_invalid (replace_spaces name))).
  destruct (PyStr.len c >? max_length)%Z.
  - exact (prefix_of_trans _ _ _ (rstrip_prefix "_." _) (slice_to_prefix c max_length)).
  - apply rstrip_prefix.
Qed.

Lemma sanitize_filename_safe name (max_length : Z) :
  let y := sanitize_filename name max_length in
  all_kept y = true
  /\ no_double_underscore y = true
  /\ no_trailing_separator y.
Proof.
  intros y. pose proof (sanitize_filename_prefix name max_length) as Hpre.
  destruct (cleaned_name_spec name) as [Hk Hd].
  split; [exact (prefix_of_all_kept _ _ Hpre Hk)|].
  split; [exact (prefix_of_no_double _ _ Hpre Hd)|].
  intros c Hc. unfold y, sanitize_filename in Hc.
  exact (last_char_rstrip _ _ _ Hc).
Qed.

Lemma sanitize_filename_fits name (max_length : Z) :
  (0 <= max_length)%Z ->
  (PyStr.len (sanitize_filename name max_length) <= max_length)%Z.
Proof.
  intros Hm. unfold sanitize_filename.
  set (c := collapse_underscores (remove_invalid (replace_spaces name))).
  destruct (truncate_spec c max_length Hm) as [_ Hlen].
  set (t := if (PyStr.len c >? max_length)%Z then slice_to c max_length else c) in *.
  pose proof (prefix_of_length _ _ (rstrip_prefix "_." t)).
  unfold PyStr.len in *. lia.
Qed.


(** X2: for a non-negative maximum length the sanitised name is at most
    that long. *)
Theorem X2_sanitized_name_fits name (max_length : Z) :
  (0 <= max_length)%Z ->
  (PyStr.len (sanitize_filename name max_length) <= max_length)%Z.
Proof.
  exact (sanitize_filename_fits name max_length).
Qed.

Lemma X2_sanitized_name_fits_witness :
  (PyStr.len (sanitize_filename "Eventual Consistency" 8) <= 8)%Z.
Proof.
  apply X2_sanitized_name_fits. lia.
Defined.

(** X3: for a non-negative maximum length the names that sanitisation
    leaves unchanged are exactly the safe ones that fit: only kept
    characters, no doubled underscore, no trailing underscore or
    period, and at most the maximum length. *)
Theorem X3_sanitize_fixed_points name (max_length : Z) :
  (0 <= max_length)%Z ->
  sanitize_filename name max_length = name
  <-> (all_kept name = true
       /\ no_double_underscore name = true
       /\ no_trailing_separator name
       /\ (PyStr.len name <= max_length)%Z).
Proof.
  intros Hm. split.
  - intros Heq.
    destruct (sanitize_filename_safe name max_length) as (Hk & Hd & Ht).
    pose proof (sanitize_filename_fits name max_length Hm) as Hl.
    cbv zeta in Hk, Hd, Ht. rewrite Heq in Hk, Hd, Ht, Hl. auto.
  - intros (Hk & Hd & Ht & Hl). unfold sanitize_filename.
    rewrite (replace_spaces_clean _ Hk), (remove_invalid_clean _ Hk),
      (collapse_clean _ Hd).
    destruct (Z.gtb_spec (PyStr.len name) max_length); [lia|].
    apply rstrip_fixed_no_trailing, Ht.
Qed.

Lemma X3_sanitize_fixed_points_witness :
  sanitize_filename "CAP_Theorem-v2.1" 100 = "CAP_Theorem-v2.1"
  <-> (all_kept "CAP_Theorem-v2.1" = true
       /\ no_double_underscore "CAP_Theorem-v2.1" = true
       /\ no_trailing_separator "CAP_Theorem-v2.1"
       /\ (PyStr.len "CAP_Theorem-v2.1" <= 100)%Z).
Proof.
  apply X3_sanitize_fixed_points. lia.
Defined.

(** Names made of separators only. *)
Lemma only_separators_cleaned name :
  only_separators name = true ->
  all_in "_." (collapse_underscores (remove_invalid (replace_spaces name))) = true.
Proof.
  assert (Hcollapse : forall s, all_in "_." s = true ->
                                all_in "_." (collapse_underscores s) = true).
  { induction s as [|c s IH]; simpl; [reflexivity|]; intros H.
    apply andb_true_iff in H as [Hc Hs].
    destruct (Ascii.eqb c underscore && starts_with_underscore s); simpl; auto.
    rewrite Hc; simpl; auto. }
  intros H. apply Hcollapse. clear Hcollapse.
  induction name as [|c name IH]; simpl in *; [reflexivity|].
  apply andb_true_iff in H as [Hc Hn]. specialize (IH Hn).
  destruct (Ascii.eqb c space) eqn:Hsp.
  - simpl. exact IH.
  - destruct (is_kept c) eqn:Hk; [|exact IH].
    simpl in Hc. simpl.
    rewrite IH, andb_true_r.
    apply orb_true_iff in Hc as [Hc|Hc]; apply Ascii.eqb_eq in Hc; subst c; reflexivity.
Qed.

Lemma prefix_of_all_in chars p : forall s,
  prefix_of p s -> all_in chars s = true -> all_in chars p = true.
Proof.
  induction p as [|a p IH]; intros [|b s] H Hs; simpl in *; auto.
  - discriminate H.
  - apply prefix_of_cons in H as [<- H].
    apply andb_true_iff in Hs as [Ha Hs]. rewrite Ha; simpl; eauto.
Qed.

Lemma rstrip_all_in chars s : all_in chars s = true -> rstrip chars s = EmptyString.
Proof.
  induction s as [|c s IH]; simpl; [reflexivity|]; intros H.
  apply andb_true_iff in H as [Hc Hs]. rewrite (IH Hs), Hc. reflexivity.
Qed.

(** X4: a name without any letter, digit or hyphen (only spaces,
    underscores, periods and characters that the sanitiser drops) is
    sanitised to the empty string, whatever the maximum length. *)
Theorem X4_separators_sanitize_to_empty name (max_length : Z) :
  only_separators name = true ->
  sanitize_filename name max_length = EmptyString.
Proof.
  intros H. apply only_separators_cleaned in H.
  unfold sanitize_filename.
  set (c := collapse_underscores (remove_invalid (replace_spaces name))) in *.
  apply rstrip_all_in.
  destruct (PyStr.len c >? max_length)%Z; [|exact H].
  exact (prefix_of_all_in _ _ _ (slice_to_prefix c max_length) H).
Qed.

Lemma X4_separators_sanitize_to_empty_witness :
  sanitize_filename "?? ... __ !!" 100 = EmptyString.
Proof.
  apply X4_separators_sanitize_to_empty. reflexivity.
Defined.

End SafeNameFacts.

(** ** The classifier and the time estimate *)

Section ClassifierFacts.
Import Models TemplateLabGenerator.




(** X6: whatever the concept, the classifier answers with one of the
    three levels that the models accept as difficulty. *)
Theorem X6_difficulty_is_a_level name definition :
  mem (_determine_difficulty name definition) difficulty_levels = true.
Proof.
  destruct (_determine_difficulty_cases name definition) as [H|[H|H]];
    rewrite H; reflexivity.
Qed.

Lemma base_time_bounds difficulty : (30 <= base_time difficulty <= 60)%Z.
Proof.
  unfold base_time.
  repeat match goal with
         | |- context [if ?b then _ else _] => destruct b
         end; lia.
Qed.

(** X7: for one to nine sections the estimate lies within the bounds
    that a lab accepts for its estimated time, whatever the difficulty
    string; at difficulty hard nine more sections exceed them. *)
Theorem X7_estimate_time_bounds difficulty (num_sections : Z) :
  (1 <= num_sections <= 9)%Z ->
  (15 <= _estimate_time difficulty num_sections <= 180)%Z
  /\ (180 < _estimate_time "hard" (num_sections + 9))%Z.
Proof.
  intros Hn. unfold _estimate_time.
  pose proof (base_time_bounds difficulty).
  change (base_time "hard") with 60%Z. lia.
Qed.

Lemma X7_estimate_time_bounds_witness :
  (15 <= _estimate_time "hard" 3 <= 180)%Z
  /\ (180 < _estimate_time "hard" (3 + 9))%Z.
Proof.
  apply X7_estimate_time_bounds. lia.
Defined.

End ClassifierFacts.

(** ** Validation of lab documents *)

(** Splits a successful [bind] into its two steps. *)
Ltac bind_inr H :=
  match type of H with
  | bind ?m _ = inr _ =>
      let E := fresh "E" in
      destruct m eqn:E; [discriminate H|]; cbn [bind] in H
  end.

(** Splits a failed [bind]: either its first step failed or the second. *)
Ltac bind_inl H :=
  match type of H with
  | bind ?m _ = inl _ =>
      let E := fresh "E" in
      destruct m eqn:E; cbn [bind] in H; [injection H as ->|]
  end.

Section ValidationFacts.
Import Models Pydantic Invariants Samples LabDocuments.

Lemma mapM_inr {A B : Type} (f : A -> result B) (l : list A) : forall l',
  mapM f l = inr l' -> Forall2 (fun a b => f a = inr b) l l'.
Proof.
  induction l as [|a l IH]; simpl; intros l' H.
  - injection H as <-. constructor.
  - bind_inr H. bind_inr H. injection H as <-.
    constructor; auto.
Qed.

Lemma Forall2_forallb {A B : Type} (R : A -> B -> Prop) (p : B -> bool) l l' :
  Forall2 R l l' -> (forall a b, R a b -> p b = true) -> forallb p l' = true.
Proof.
  induction 1 as [|a b l l' Hab _ IH]; intros Hp; simpl; [reflexivity|].
  rewrite (Hp a b Hab), IH; auto.
Qed.

Lemma LabExercise_validate_ok d e :
  LabExercise_validate d = inr e -> exercise_ok e = true.
Proof.
  unfold LabExercise_validate. intros H.
  repeat bind_inr H.
  unfold LabExercise_init in H.
  match type of H with context [if ?b then _ else _] => destruct b eqn:Hok end;
    [|discriminate H].
  injection H as <-. exact Hok.
Qed.

Lemma as_list_exercises_ok m v l :
  as_list m (fun v => e <- as_dict m v ;; LabExercise_validate e) v = inr l ->
  forallb exercise_ok l = true.
Proof.
  destruct v; try discriminate. simpl. intros H.
  apply mapM_inr in H. apply (Forall2_forallb _ _ _ _ H).
  intros a b Hab. bind_inr Hab. exact (LabExercise_validate_ok _ _ Hab).
Qed.

Lemma LabSection_validate_ok d s :
  LabSection_validate d = inr s -> section_ok s = true.
Proof.
  unfold LabSection_validate. intros H.
  repeat bind_inr H.
  unfold LabSection_init in H.
  match type of H with context [if ?b then _ else _] => destruct b eqn:Hok end;
    [|discriminate H].
  injection H as <-. unfold section_ok. rewrite Hok. simpl.
  match goal with
  | E : required _ _ "exercises" _ = inr _ |- _ =>
      unfold required in E; destruct (dict_lookup "exercises" d); [|discriminate E];
      exact (as_list_exercises_ok _ _ _ E)
  end.
Qed.

Lemma as_list_sections_ok m v l :
  as_list m (fun v => s <- as_dict m v ;; LabSection_validate s) v = inr l ->
  forallb section_ok l = true.
Proof.
  destruct v; try discriminate. simpl. intros H.
  apply mapM_inr in H. apply (Forall2_forallb _ _ _ _ H).
  intros a b Hab. bind_inr Hab. exact (LabSection_validate_ok _ _ Hab).
Qed.

(** What an accepted document guarantees. *)
Lemma PersonalizedLab_validate_ok d l :
  PersonalizedLab_validate d = inr l ->
  lab_ok l = true
  /\ dict_lookup "title" d = Some (JStr (title l))
  /\ dict_lookup "topic" d = Some (JStr (topic l))
  /\ dict_lookup "difficulty" d = Some (JStr (difficulty l))
  /\ dict_lookup "estimated_time" d = Some (JInt (estimated_time l))
  /\ exists items,
       dict_lookup "sections" d = Some (JArr items)
       /\ List.length items = List.length (sections l).
Proof.
  unfold PersonalizedLab_validate. intros H.
  repeat bind_inr H.
  unfold PersonalizedLab_init in H.
  match type of H with context [if ?b then _ else _] => destruct b eqn:Hok end;
    [|discriminate H].
  injection H as <-. unfold lab_ok. rewrite Hok. cbn [andb title topic difficulty estimated_time sections].
  repeat match goal with
         | E : required _ _ ?k _ = inr _ |- _ =>
             unfold required in E;
             let v := fresh "v" in
             destruct (dict_lookup k d) as [v|] eqn:?; [|discriminate E];
             try (destruct v; try discriminate E; injection E as <-)
         end.
  split; [eapply as_list_sections_ok; eassumption|].
  do 4 (split; [reflexivity|]).
  match goal with
  | E : as_list _ _ ?v = inr _ |- _ =>
      destruct v; try discriminate E; simpl in E; apply mapM_inr in E;
      eexists; split; [reflexivity | exact (Forall2_length E)]
  end.
Qed.

Lemma mem_In s allowed : mem s allowed = true -> In s allowed.
Proof.
  unfold mem. intros H. apply existsb_exists in H as (x & Hx & Heq).
  apply String.eqb_eq in Heq; subst; exact Hx.
Qed.

Lemma exercise_ok_invariant e : exercise_ok e = true -> exercise_invariant e.
Proof.
  unfold exercise_ok, exercise_invariant. intros H.
  apply andb_true_iff in H as [H Hhi]. apply andb_true_iff in H as [Hty Hlo].
  split; [lia | exact (mem_In _ _ Hty)].
Qed.

Lemma section_ok_invariant s : section_ok s = true -> section_invariant s.
Proof.
  unfold section_ok, section_fields_ok, section_invariant. intros H.
  apply andb_true_iff in H as [H Hex]. apply andb_true_iff in H as [H Hlen].
  apply andb_true_iff in H as [Hd Hs].
  repeat split; try (apply mem_In; assumption).
  - apply Nat.leb_le; exact Hlen.
  - apply Forall_forall. intros e He. apply exercise_ok_invariant.
    rewrite forallb_forall in Hex. auto.
Qed.

(** The checks of the models, read as the invariant of a lab. *)
Lemma lab_ok_invariant l : lab_ok l = true -> lab_invariant l.
Proof.
  unfold lab_ok, lab_fields_ok, lab_invariant. intros H.
  apply andb_true_iff in H as [H Hsec]. apply andb_true_iff in H as [H Hlen].
  apply andb_true_iff in H as [H Hhi]. apply andb_true_iff in H as [Hd Hlo].
  repeat split; try lia.
  - exact (mem_In _ _ Hd).
  - apply Nat.leb_le; exact Hlen.
  - apply Forall_forall. intros s Hs. apply section_ok_invariant.
    rewrite forallb_forall in Hsec. auto.
Qed.

(** X8: a document that [PersonalizedLab] accepts yields a lab that
    satisfies every constraint of the models, down to its exercises,
    and dumping that lab gives a document that is accepted again, as
    the same lab. *)
Theorem X8_accepted_lab_is_valid d l :
  PersonalizedLab_validate d = inr l ->
  lab_invariant l
  /\ PersonalizedLab_validate (PersonalizedLab_model_dump l) = inr l.
Proof.
  intros H. destruct (PersonalizedLab_validate_ok d l H) as [Hok _].
  split; [exact (lab_ok_invariant l Hok) | exact (PersonalizedLab_roundtrip l Hok)].
Qed.

Lemma X8_accepted_lab_is_valid_witness :
  lab_invariant sample_lab
  /\ PersonalizedLab_validate (PersonalizedLab_model_dump sample_lab) = inr sample_lab.
Proof.
  apply (X8_accepted_lab_is_valid (PersonalizedLab_model_dump sample_lab)).
  reflexivity.
Defined.

Lemma fails_validly_ret {A : Type} (a : A) : fails_validly (ret a).
Proof. intros e H; discriminate H. Qed.

Lemma fails_validly_raise {A : Type} model :
  fails_validly (raise (A:=A) (ValidationError model)).
Proof. intros e H; injection H as <-; reflexivity. Qed.

Lemma fails_validly_bind {A B : Type} (m : result A) (k : A -> result B) :
  fails_validly m -> (forall a, fails_validly (k a)) -> fails_validly (bind m k).
Proof.
  intros Hm Hk e H. destruct m as [e'|a]; simpl in H.
  - injection H as <-. apply Hm; reflexivity.
  - exact (Hk a e H).
Qed.

Lemma fails_validly_as_str m v : fails_validly (as_str m v).
Proof. destruct v; simpl; auto using @fails_validly_ret, @fails_validly_raise. Qed.

Lemma fails_validly_as_int m v : fails_validly (as_int m v).
Proof. destruct v; simpl; auto using @fails_validly_ret, @fails_validly_raise. Qed.

Lemma fails_validly_as_dict m v : fails_validly (as_dict m v).
Proof. destruct v; simpl; auto using @fails_validly_ret, @fails_validly_raise. Qed.

Lemma fails_validly_mapM {A B : Type} (f : A -> result B) l :
  (forall a, fails_validly (f a)) -> fails_validly (mapM f l).
Proof.
  intros Hf. induction l as [|a l IH]; simpl; [apply fails_validly_ret|].
  apply fails_validly_bind; [apply Hf|]. intros b.
  apply fails_validly_bind; [exact IH|]. intros bs. apply fails_validly_ret.
Qed.

Lemma fails_validly_as_list {A : Type} m (item : json -> result A) v :
  (forall a, fails_validly (item a)) -> fails_validly (as_list m item v).
Proof.
  intros Hitem. destruct v; simpl;
    auto using @fails_validly_raise, @fails_validly_mapM.
Qed.

Lemma fails_validly_required {A : Type} m d key (item : json -> result A) :
  (forall a, fails_validly (item a)) -> fails_validly (required m d key item).
Proof.
  intros Hitem. unfold required.
  destruct (dict_lookup key d); auto using @fails_validly_raise.
Qed.

Lemma fails_validly_optional {A : Type} d key (item : json -> result A) :
  (forall a, fails_validly (item a)) -> fails_validly (optional d key item).
Proof.
  intros Hitem. unfold optional.
  destruct (dict_lookup key d) as [v|]; [|apply fails_validly_ret].
  destruct v; try apply fails_validly_ret;
    (apply fails_validly_bind; [apply Hitem | intros; apply fails_validly_ret]).
Qed.

Lemma fails_validly_init {A : Type} (ok : A -> bool) model (a : A) :
  fails_validly (if ok a then ret a else raise (ValidationError model)).
Proof.
  destruct (ok a); auto using @fails_validly_ret, @fails_validly_raise.
Qed.

Create HintDb validation.
#[local] Hint Resolve fails_validly_as_str fails_validly_as_int fails_validly_as_dict
  fails_validly_as_list fails_validly_required fails_validly_optional : validation.

(** Runs through the fields of a validator. *)
Ltac validator_fails :=
  repeat (apply fails_validly_bind; [auto with validation | intros]).

Lemma fails_validly_exercise d : fails_validly (LabExercise_validate d).
Proof.
  unfold LabExercise_validate. validator_fails. apply fails_validly_init.
Qed.

Lemma fails_validly_section d : fails_validly (LabSection_validate d).
Proof.
  unfold LabSection_validate. validator_fails.
  - apply fails_validly_required; intros items.
    apply fails_validly_as_list; intros v.
    apply fails_validly_bind; [apply fails_validly_as_dict|].
    apply fails_validly_exercise.
  - validator_fails. apply fails_validly_init.
Qed.

Lemma fails_validly_lab d : fails_validly (PersonalizedLab_validate d).
Proof.
  unfold PersonalizedLab_validate. validator_fails.
  - apply fails_validly_required; intros items.
    apply fails_validly_as_list; intros v.
    apply fails_validly_bind; [apply fails_validly_as_dict|].
    apply fails_validly_section.
  - validator_fails. apply fails_validly_init.
Qed.

(** X9: a document is rejected with a [ValidationError] when one of the
    five required fields is missing, when its estimated time lies
    outside [15, 180], or when its list of sections is empty. *)
Theorem X9_invalid_documents_rejected d :
  (exists key, In key required_fields /\ dict_lookup key d = None)
  \/ (exists z, dict_lookup "estimated_time" d = Some (JInt z)
                /\ (z < 15 \/ 180 < z)%Z)
  \/ dict_lookup "sections" d = Some (JArr []) ->
  exists e, PersonalizedLab_validate d = inl e /\ exc_class e = "ValidationError".
Proof.
  intros Hbad.
  destruct (PersonalizedLab_validate d) as [e|l] eqn:Hv.
  - exists e. split; [reflexivity | exact (fails_validly_lab d e Hv)].
  - exfalso.
    destruct (PersonalizedLab_validate_ok d l Hv)
      as (Hok & Hti & Hto & Hdi & Het & items & Hse & Hlen).
    destruct (lab_ok_invariant l Hok) as (_ & Htime & Hsections & _).
    destruct Hbad as [(key & Hin & Hnone) | [(z & Hz & Hrange) | Hempty]].
    + unfold required_fields in Hin; simpl in Hin.
      repeat (destruct Hin as [<-|Hin]; [congruence|]). exact Hin.
    + rewrite Het in Hz. injection Hz as <-. lia.
    + rewrite Hse in Hempty. injection Hempty as ->. simpl in Hlen. lia.
Qed.

Lemma X9_invalid_documents_rejected_witness :
  exists e,
    PersonalizedLab_validate
      [ ("title", JStr "Sharding"); ("topic", JStr "NoSQL Databases");
        ("difficulty", JStr "easy"); ("estimated_time", JInt 200);
        ("sections", JArr []) ] = inl e
    /\ exc_class e = "ValidationError".
Proof.
  apply X9_invalid_documents_rejected.
  right; left. exists 200%Z. split; [reflexivity | lia].
Defined.

Lemma dict_lookup_cons_other key k v d :
  k <> key -> dict_lookup key ((k, v) :: d) = dict_lookup key d.
Proof.
  intros Hne. simpl. destruct (String.eqb_spec k key); [contradiction | reflexivity].
Qed.

(** X10: a key that is not a field of the lab model does not matter: a
    document with such an entry in front validates exactly as the
    document without it. *)
Theorem X10_unknown_keys_ignored d k v :
  ~ In k (required_fields ++ optional_fields)%list ->
  PersonalizedLab_validate ((k, v) :: d) = PersonalizedLab_validate d.
Proof.
  intros Hk. unfold PersonalizedLab_validate, required, optional.
  rewrite !dict_lookup_cons_other
    by (intros ->; apply Hk; unfold required_fields, optional_fields; simpl; tauto).
  reflexivity.
Qed.

Lemma X10_unknown_keys_ignored_witness :
  PersonalizedLab_validate (("notes", JStr "draft") :: PersonalizedLab_model_dump sample_lab)
  = PersonalizedLab_validate (PersonalizedLab_model_dump sample_lab).
Proof.
  apply X10_unknown_keys_ignored.
  unfold required_fields, optional_fields; simpl.
  intros H; repeat (destruct H as [H|H]; [discriminate H|]); exact H.
Defined.

End ValidationFacts.

(** ** The output organiser *)

Section OrganizerFacts.
Import Models Pydantic FileUtils Organizer Invariants Samples.

Lemma append_cancel_l a : forall b c : string, a ++ b = a ++ c -> b = c.
Proof.
  induction a as [|x a IH]; simpl; intros b c H; [exact H|].
  injection H as H. exact (IH _ _ H).
Qed.

Lemma lab_file_name_differs s : s ++ "_lab.json" <> "lab_content.json".
Proof.
  intros H.
  do 16 (destruct s as [|? s]; simpl in H; [discriminate H | injection H as _ H]).
  destruct s; discriminate H.
Qed.

(** The two files of a concept have different paths. *)
Lemma full_and_simplified_differ concept_dir concept_name :
  path_join concept_dir (sanitize concept_name ++ "_lab.json")
  <> path_join concept_dir "lab_content.json".
Proof.
  unfold path_join. intros H.
  apply append_cancel_l in H. injection H as H.
  exact (lab_file_name_differs _ H).
Qed.

Lemma read_json_other path p data fs :
  p <> path -> read_json path (write_json p data fs) = read_json path fs.
Proof.
  intros Hne. unfold write_json; simpl.
  destruct (String.eqb_spec p path); [contradiction | reflexivity].
Qed.

(** What [organize_lab_output] returns and leaves behind. *)
Lemma organize_lab_output_spec lab_result output_dir concept_name fs :
  let concept_dir := create_output_directory output_dir concept_name in
  let full := path_join concept_dir (sanitize concept_name ++ "_lab.json") in
  let simplified := path_join concept_dir "lab_content.json" in
  exists full_data,
    organize_lab_output lab_result output_dir concept_name fs
    = ([ ("concept_dir", concept_dir); ("full_lab_file", full);
         ("simplified_file", simplified) ],
       write_json simplified (JObj (PersonalizedLab_model_dump (lab lab_result)))
         (write_json full (JObj full_data) fs))
    /\ dict_lookup "lab" full_data
       = Some (JObj (PersonalizedLab_model_dump (lab lab_result)))
    /\ dict_lookup "metadata" full_data
       = Some (JObj (LabGenerationMetadata_model_dump (metadata lab_result)))
    /\ dict_lookup "success" full_data = Some (JBool (success lab_result))
    /\ dict_lookup "error" full_data
       = (if PyStr.truthy (error lab_result)
          then option_map JStr (error lab_result) else None).
Proof.
  intros concept_dir full simplified.
  unfold organize_lab_output, save_lab_json. fold concept_dir full simplified.
  eexists. split; [reflexivity|].
  destruct (error lab_result) as [[|c err]|]; repeat split; reflexivity.
Qed.

(** X11: the full file of a concept can be read back after both files
    have been written; it holds the dumped lab, the dumped metadata and
    the success flag, and an error entry exactly when the error message
    of the result is a non-empty string. *)
Theorem X11_full_file_contents lab_result output_dir concept_name fs :
  exists files fs' path full_data,
    organize_lab_output lab_result output_dir concept_name fs = (files, fs')
    /\ saved_path "full_lab_file" files = Some path
    /\ read_json path fs' = Some (JObj full_data)
    /\ dict_lookup "lab" full_data
       = Some (JObj (PersonalizedLab_model_dump (lab lab_result)))
    /\ dict_lookup "metadata" full_data
       = Some (JObj (LabGenerationMetadata_model_dump (metadata lab_result)))
    /\ dict_lookup "success" full_data = Some (JBool (success lab_result))
    /\ dict_lookup "error" full_data
       = match error lab_result with
         | Some (String c err) => Some (JStr (String c err))
         | _ => None
         end.
Proof.
  destruct (organize_lab_output_spec lab_result output_dir concept_name fs)
    as (full_data & Hrun & Hlab & Hmeta & Hsucc & Herr).
  do 2 eexists. eexists. exists full_data.
  split; [exact Hrun|]. split; [reflexivity|].
  split.
  - rewrite read_json_other; [apply read_json_latest|].
    intros H; symmetry in H; exact (full_and_simplified_differ _ _ H).
  - repeat split; auto.
    rewrite Herr. destruct (error lab_result) as [[|c err]|]; reflexivity.
Qed.



(** X13: two concept names with the same sanitised form share one
    directory and one pair of file names, so organising the second
    result overwrites the files of the first: what is read back
    afterwards is the second lab. *)
Theorem X13_colliding_names_overwrite first second output_dir name name' fs :
  sanitize name = sanitize name' ->
  lab_ok (lab second) = true ->
  let '(files, fs1) := organize_lab_output first output_dir name fs in
  let '(files', fs2) := organize_lab_output second output_dir name' fs1 in
  files' = files
  /\ exists path,
       saved_path "simplified_file" files = Some path
       /\ load_lab path fs2 = Some (inr (lab second)).
Proof.
  intros Hsame Hok.
  destruct (organize_lab_output_spec first output_dir name fs)
    as (d1 & -> & _).
  destruct (organize_lab_output_spec second output_dir name'
              (write_json
                 (path_join (create_output_directory output_dir name) "lab_content.json")
                 (JObj (PersonalizedLab_model_dump (lab first)))
                 (write_json
                    (path_join (create_output_directory output_dir name)
                               (sanitize name ++ "_lab.json"))
                    (JObj d1) fs)))
    as (d2 & -> & _).
  unfold create_output_directory. rewrite <- Hsame.
  split; [reflexivity|].
  eexists. split; [reflexivity|].
  unfold load_lab. rewrite read_json_latest.
  rewrite (PersonalizedLab_roundtrip _ Hok). reflexivity.
Qed.

Lemma X13_colliding_names_overwrite_witness :
  let '(files, fs1) :=
    organize_lab_output sample_result "batch_output" "CAP Theorem" [] in
  let '(files', fs2) :=
    organize_lab_output other_result "batch_output" "CAP_Theorem!!" fs1 in
  files' = files
  /\ exists path,
       saved_path "simplified_file" files = Some path
       /\ load_lab path fs2 = Some (inr (lab other_result)).
Proof.
  apply (X13_colliding_names_overwrite sample_result other_result
           "batch_output" "CAP Theorem" "CAP_Theorem!!" []); reflexivity.
Defined.

End OrganizerFacts.

(** ** The prompted generator on every answer of the service *)

Section PromptedFacts.
Import Models Pydantic LabGenerationService Invariants Samples.

Lemma _create_fallback_lab_ok concept_name topic :
  exists l, _create_fallback_lab concept_name topic = inr l /\ lab_ok l = true.
Proof.
  eexists. split; reflexivity.
Qed.

(** The result of the [try] block, when there is one, is a validated
    lab with the metadata of the call. *)
Lemma generate_lab_try_spec parser_parse model_name
      concept_name concept_definition topic ctx response r :
  generate_lab_try parser_parse model_name concept_name concept_definition topic
                   ctx response = inr r ->
  lab_ok (lab r) = true
  /\ metadata r
     = {| Models.concept_name := concept_name;
          Models.concept_definition := concept_definition;
          source_topic := topic;
          model_used := Some model_name;
          personalization_applied :=
            match ctx with Some _ => true | None => false end |}
  /\ success r = true /\ error r = None.
Proof.
  unfold generate_lab_try. intros H.
  bind_inr H. bind_inr H. bind_inr H.
  cbn in H. injection H as <-. cbn.
  repeat split.
  match goal with
  | E : match ?j with JObj _ => _ | _ => _ end = inr _ |- _ =>
      destruct j; try discriminate E;
      exact (proj1 (PersonalizedLab_validate_ok _ _ E))
  end.
Qed.

(** Every call of the generator, whatever the service and the parser
    do. *)
Lemma service_generate_lab_spec (World : Type)
      (llm_invoke : string -> World -> result string * World)
      (parser_parse : string -> result json) (model_name : string)
      concept_name concept_definition topic ctx (s : Session World) :
  exists r s',
    generate_lab llm_invoke parser_parse model_name
                 concept_name concept_definition topic ctx s = (inr r, s')
    /\ prompts_sent s'
       = (prompts_sent s
          ++ [_create_lab_prompt concept_name concept_definition topic ctx])%list
    /\ lab_ok (lab r) = true
    /\ Models.concept_name (metadata r) = concept_name
    /\ Models.concept_definition (metadata r) = concept_definition
    /\ source_topic (metadata r) = topic
    /\ model_used (metadata r) = Some model_name
    /\ (success r = true /\ error r = None
        \/ success r = false /\ (exists msg, error r = Some msg)
           /\ _create_fallback_lab concept_name topic = inr (lab r)).
Proof.
  unfold generate_lab, invoke.
  destruct (llm_invoke _ (world s)) as [response w].
  destruct (generate_lab_try parser_parse model_name concept_name concept_definition
              topic ctx response) as [e|r] eqn:Htry; cbn [try_except].
  - destruct (_create_fallback_lab_ok concept_name topic) as (l & Hl & Hok).
    unfold generate_lab_except. rewrite Hl. cbn.
    do 2 eexists. split; [reflexivity|]. cbn.
    repeat split; auto.
    right. repeat split; eauto.
  - destruct (generate_lab_try_spec _ _ _ _ _ _ _ _ Htry) as (Hok & Hmeta & Hs & He).
    do 2 eexists. split; [reflexivity|]. cbn.
    rewrite Hmeta. cbn. repeat split; auto.
Qed.

(** X14: whatever the service answers and whatever the parser makes of
    it, the prompted generator raises nothing and returns a lab that
    satisfies the invariant of the models; the result carries an error
    message exactly when it did not succeed, its metadata repeat the
    concept, and the service has been called exactly once. *)
Theorem X14_prompted_generator_total (World : Type)
        (llm_invoke : string -> World -> result string * World)
        (parser_parse : string -> result json) (model_name : string)
        concept_name concept_definition topic ctx (s : Session World) :
  exists r s',
    generate_lab llm_invoke parser_parse model_name
                 concept_name concept_definition topic ctx s = (inr r, s')
    /\ lab_invariant (lab r)
    /\ (success r = true <-> error r = None)
    /\ Models.concept_name (metadata r) = concept_name
    /\ Models.concept_definition (metadata r) = concept_definition
    /\ source_topic (metadata r) = topic
    /\ prompts_sent s'
       = (prompts_sent s
          ++ [_create_lab_prompt concept_name concept_definition topic ctx])%list.
Proof.
  destruct (service_generate_lab_spec World llm_invoke parser_parse model_name
              concept_name concept_definition topic ctx s)
    as (r & s' & Hrun & Hsent & Hok & Hn & Hd & Ht & _ & Hcases).
  exists r, s'. split; [exact Hrun|].
  split; [exact (lab_ok_invariant _ Hok)|].
  split; [|auto].
  destruct Hcases as [[Hs He] | (Hs & (msg & He) & _)]; rewrite Hs, He;
    split; intros; congruence.
Qed.

Lemma contains_prefix x rest : PyStr.contains x (x ++ rest) = true.
Proof.
  assert (H : PyStr.startswith x (x ++ rest) = true).
  { induction x as [|c x IH]; simpl; [reflexivity|].
    rewrite Ascii.eqb_refl; exact IH. }
  destruct (x ++ rest); simpl; rewrite H; reflexivity.
Qed.

Lemma contains_self x : PyStr.contains x x = true.
Proof.
  pose proof (prefix_of_refl x) as H. unfold prefix_of in H.
  destruct x; simpl in *; [reflexivity|]. rewrite H. reflexivity.
Qed.

Lemma contains_app_r x u v :
  PyStr.contains x v = true -> PyStr.contains x (u ++ v) = true.
Proof.
  intros Hv. induction u as [|c u IH]; simpl; [exact Hv|].
  rewrite IH. apply orb_true_r.
Qed.

Lemma startswith_app_l x : forall u v,
  PyStr.startswith x u = true -> PyStr.startswith x (u ++ v) = true.
Proof.
  induction x as [|a x IH]; intros [|b u] v H; simpl in *; try reflexivity;
    try discriminate.
  apply andb_true_iff in H as [Hab Hx]. rewrite Hab; simpl. exact (IH _ _ Hx).
Qed.

Lemma contains_app_l x u v :
  PyStr.contains x u = true -> PyStr.contains x (u ++ v) = true.
Proof.
  induction u as [|c u IH]; simpl.
  - rewrite orb_false_r. destruct x; [|discriminate]. intros _.
    destruct v; reflexivity.
  - intros H. apply orb_true_iff in H as [H|H].
    + pose proof (startswith_app_l x (String c u) v H) as H'.
      simpl in H'. rewrite H'. reflexivity.
    + rewrite (IH H). apply orb_true_r.
Qed.

(** X15: the prompt names the concept, its definition and its topic and
    always ends with the description of the expected JSON structure; a
    non-empty personalization context occurs in it as well. *)
Theorem X15_prompt_embeds_its_arguments concept_name concept_definition topic ctx :
  let prompt := _create_lab_prompt concept_name concept_definition topic ctx in
  PyStr.contains concept_name prompt = true
  /\ PyStr.contains concept_definition prompt = true
  /\ PyStr.contains topic prompt = true
  /\ PyStr.contains prompt_structure prompt = true
  /\ (forall c, ctx = Some c -> c <> EmptyString -> PyStr.contains c prompt = true).
Proof.
  assert (Hheader :
    PyStr.contains concept_name (prompt_header concept_name concept_definition topic) = true
    /\ PyStr.contains concept_definition
         (prompt_header concept_name concept_definition topic) = true
    /\ PyStr.contains topic (prompt_header concept_name concept_definition topic) = true).
  { unfold prompt_header. repeat split.
    - apply contains_app_r, contains_prefix.
    - do 3 apply contains_app_r. apply contains_prefix.
    - do 5 apply contains_app_r. apply contains_prefix. }
  destruct Hheader as (Hn & Hd & Ht).
  assert (Hbase : forall x,
    PyStr.contains x (prompt_header concept_name concept_definition topic) = true ->
    PyStr.contains x (_create_lab_prompt concept_name concept_definition topic ctx) = true).
  { intros x Hx. unfold _create_lab_prompt.
    destruct ctx as [[|c ctx]|]; cbn [PyStr.truthy].
    - apply contains_app_l; exact Hx.
    - do 2 apply contains_app_l; exact Hx.
    - apply contains_app_l; exact Hx. }
  cbv zeta. repeat split; auto.
  - unfold _create_lab_prompt. apply contains_app_r, contains_self.
  - intros c -> Hc. unfold _create_lab_prompt.
    destruct c as [|a c]; [contradiction|]. cbn [PyStr.truthy].
    apply contains_app_l, contains_app_r. unfold prompt_personalization.
    apply contains_app_r, contains_prefix.
Qed.

End PromptedFacts.

(** ** Batches of the prompted generator *)

Section BatchFacts.
Import Models LabGenerationService LabGenerationBatch Invariants Samples Batches.

Variable World : Type.
Variable llm_invoke : string -> World -> result string * World.
Variable parser_parse : string -> result json.
Variable model_name : string.

Lemma generate_lab_result_for concept_name concept_definition topic ctx
      (s : Session World) :
  exists r s',
    generate_lab llm_invoke parser_parse model_name
                 concept_name concept_definition topic ctx s = (inr r, s')
    /\ result_for (concept_name, concept_definition, topic) r
    /\ prompts_sent s'
       = (prompts_sent s ++ [prompt_for ctx (concept_name, concept_definition, topic)])%list.
Proof.
  destruct (service_generate_lab_spec World llm_invoke parser_parse model_name
              concept_name concept_definition topic ctx s)
    as (r & s' & Hrun & Hsent & Hok & Hn & Hd & Ht & _ & Hcases).
  exists r, s'. split; [exact Hrun|]. split; [|exact Hsent].
  unfold result_for.
  split; [exact Hn|]. split; [exact Hd|]. split; [exact Ht|].
  split; [exact (lab_ok_invariant _ Hok)|].
  destruct Hcases as [[Hs He] | (Hs & (msg & He) & _)]; rewrite Hs, He;
    split; intros; congruence.
Qed.

(** The loop over a run of concepts that all have their three keys. *)
Lemma batch_loop_complete ctx concepts args :
  Forall2 (fun c a => concept_arguments c = inr a) concepts args ->
  forall rest acc (s : Session World),
  exists results s1,
    batch_loop llm_invoke parser_parse model_name (concepts ++ rest)%list ctx acc s
    = batch_loop llm_invoke parser_parse model_name rest ctx (acc ++ results)%list s1
    /\ Forall2 result_for args results
    /\ prompts_sent s1 = (prompts_sent s ++ map (prompt_for ctx) args)%list.
Proof.
  induction 1 as [|c [[n d] t] concepts args Hc _ IH]; intros rest acc s.
  - exists [], s. rewrite !app_nil_r. repeat split; constructor.
  - destruct (generate_lab_result_for n d t ctx s) as (r & s' & Hrun & Hfor & Hsent).
    destruct (IH rest (acc ++ [r])%list s') as (results & s1 & Hloop & Hall & Hsent1).
    exists (r :: results), s1.
    cbn [app batch_loop]. rewrite Hc, Hrun, Hloop, <- app_assoc.
    split; [reflexivity|]. split; [constructor; assumption|].
    rewrite Hsent1, Hsent, <- app_assoc. reflexivity.
Qed.

(** X16: when every concept of the batch has its name, definition and
    topic, the batch returns one result per concept, in the order of the
    concepts, each a valid lab for its concept whether generation
    succeeded or fell back; the service has been called once per
    concept, in the same order. *)
Theorem X16_batch_one_result_per_concept ctx concepts args (s : Session World) :
  Forall2 (fun c a => concept_arguments c = inr a) concepts args ->
  exists results s',
    generate_batch_labs llm_invoke parser_parse model_name concepts ctx s
    = (inr results, s')
    /\ Forall2 result_for args results
    /\ prompts_sent s' = (prompts_sent s ++ map (prompt_for ctx) args)%list.
Proof.
  intros Hall. unfold generate_batch_labs.
  destruct (batch_loop_complete ctx concepts args Hall [] [] s)
    as (results & s1 & Hloop & Hfor & Hsent).
  rewrite app_nil_r in Hloop. exists results, s1. rewrite Hloop. auto.
Qed.

Lemma concept_arguments_key_error c e :
  concept_arguments c = inl e -> exc_class e = "KeyError".
Proof.
  assert (Hget : forall key e, getitem c key = inl e -> exc_class e = "KeyError").
  { intros key e'. induction c as [|[k v] c IH]; simpl.
    - intros H; injection H as <-; reflexivity.
    - destruct (String.eqb k key); [discriminate | exact IH]. }
  unfold concept_arguments. intros H.
  repeat (bind_inl H; [eauto|]). discriminate H.
Qed.

(** X17: a concept that lacks one of the three keys ends the batch with
    a [KeyError]: the results of the concepts before it are not
    returned, and the service has been called for those concepts only. *)
Theorem X17_batch_stops_at_missing_key ctx before args bad after e
        (s : Session World) :
  Forall2 (fun c a => concept_arguments c = inr a) before args ->
  concept_arguments bad = inl e ->
  exists s',
    generate_batch_labs llm_invoke parser_parse model_name
                        (before ++ bad :: after)%list ctx s = (inl e, s')
    /\ exc_class e = "KeyError"
    /\ prompts_sent s' = (prompts_sent s ++ map (prompt_for ctx) args)%list.
Proof.
  intros Hall Hbad. unfold generate_batch_labs.
  destruct (batch_loop_complete ctx before args Hall (bad :: after) [] s)
    as (results & s1 & Hloop & _ & Hsent).
  exists s1. rewrite Hloop. cbn [batch_loop]. rewrite Hbad.
  repeat split; auto. exact (concept_arguments_key_error _ _ Hbad).
Qed.

End BatchFacts.

Section BatchWitnesses.
Import Models LabGenerationService LabGenerationBatch Invariants Samples Batches.

Lemma X16_batch_one_result_per_concept_witness :
  exists results s',
    generate_batch_labs
      (failing_llm (mkException "TimeoutError" "Request timed out."))
      (canned_parser JNull) "gpt-4"
      [ [ ("name", "CAP Theorem"); ("definition", "Pick two of three");
          ("topic", "NoSQL Databases") ];
        [ ("topic", "NoSQL Databases"); ("name", "Sharding");
          ("definition", "Horizontal partitioning") ] ]
      (Some "music") new_session
    = (inr results, s')
    /\ Forall2 result_for
         [ ("CAP Theorem", "Pick two of three", "NoSQL Databases");
           ("Sharding", "Horizontal partitioning", "NoSQL Databases") ] results
    /\ prompts_sent s'
       = (prompts_sent new_session
          ++ map (prompt_for (Some "music"))
               [ ("CAP Theorem", "Pick two of three", "NoSQL Databases");
                 ("Sharding", "Horizontal partitioning", "NoSQL Databases") ])%list.
Proof.
  apply X16_batch_one_result_per_concept.
  repeat constructor.
Defined.

Lemma X17_batch_stops_at_missing_key_witness :
  exists s',
    generate_batch_labs
      (canned_llm "a lab in JSON")
      (canned_parser (JObj (Pydantic.PersonalizedLab_model_dump sample_lab))) "gpt-4"
      ([ [ ("name", "CAP Theorem"); ("definition", "Pick two of three");
           ("topic", "NoSQL Databases") ] ]
       ++ [ ("name", "Sharding"); ("definition", "Horizontal partitioning") ]
       :: [ [ ("name", "Replication"); ("definition", "Copies of the data");
              ("topic", "NoSQL Databases") ] ])%list
      None new_session
    = (inl (KeyError "topic"), s')
    /\ exc_class (KeyError "topic") = "KeyError"
    /\ prompts_sent s'
       = (prompts_sent new_session
          ++ map (prompt_for None)
               [ ("CAP Theorem", "Pick two of three", "NoSQL Databases") ])%list.
Proof.
  apply X17_batch_stops_at_missing_key.
  - repeat constructor.
  - reflexivity.
Defined.

End BatchWitnesses.

(** ** The template generator and its batch driver *)

Section DriverFacts.
Import Models Pydantic FileUtils Organizer Summary TemplateLabGenerator GenerateAllLabs.
Import Invariants Samples Records.

(** The template generator always succeeds, with a valid lab. *)
Lemma template_generate_lab_spec concept_name concept_definition topic ctx :
  exists r,
    generate_lab concept_name concept_definition topic ctx = inr r
    /\ success r = true
    /\ error r = None
    /\ lab_ok (lab r) = true
    /\ Models.personalization_context (lab r) = ctx
    /\ title (lab r)
       = match ctx with
         | Some (String c rest) =>
             "Hands-On Lab: " ++ concept_name ++ " in " ++ PyStr.title (String c rest)
         | _ => "Hands-On Lab: " ++ concept_name
         end
    /\ metadata r
       = {| Models.concept_name := concept_name;
            Models.concept_definition := concept_definition;
            source_topic := topic;
            model_used := Some "template";
            personalization_applied :=
              match ctx with Some _ => true | None => false end |}.
Proof.
  rewrite generate_lab_returns. unfold generate_lab_try.
  destruct (_determine_difficulty_cases concept_name concept_definition)
    as [H|[H|H]]; rewrite H; cbn;
    eexists; (split; [reflexivity|]); cbn;
    repeat split; destruct ctx as [[|c rest]|]; reflexivity.
Qed.

(** X18: the template result records the context as it was passed and is
    marked as personalised whenever a context was passed at all; the
    title names the context only when it is non-empty, so that an empty
    context gives the plain title under a result marked as
    personalised. *)
Theorem X18_template_personalization concept_name concept_definition topic ctx :
  exists r,
    generate_lab concept_name concept_definition topic ctx = inr r
    /\ Models.personalization_context (lab r) = ctx
    /\ (personalization_applied (metadata r) = true <-> ctx <> None)
    /\ (PyStr.truthy ctx = false -> title (lab r) = "Hands-On Lab: " ++ concept_name)
    /\ (forall c, ctx = Some c -> c <> EmptyString ->
                  title (lab r)
                  = "Hands-On Lab: " ++ concept_name ++ " in " ++ PyStr.title c).
Proof.
  destruct (template_generate_lab_spec concept_name concept_definition topic ctx)
    as (r & Hr & _ & _ & _ & Hctx & Htitle & Hmeta).
  exists r. split; [exact Hr|]. split; [exact Hctx|].
  rewrite Hmeta, Htitle. cbn [personalization_applied].
  split; [|split].
  - destruct ctx; split; intros; congruence.
  - destruct ctx as [[|c rest]|]; cbn; intros; congruence.
  - intros c -> Hc. destruct c; [contradiction | reflexivity].
Qed.

(** Writing a valid lab out and reading it back. *)
Lemma organize_then_load lab_result output_dir concept_name fs :
  lab_ok (lab lab_result) = true ->
  exists files fs' path,
    organize_lab_output lab_result output_dir concept_name fs = (files, fs')
    /\ saved_path "simplified_file" files = Some path
    /\ load_lab path fs' = Some (inr (lab lab_result)).
Proof.
  intros Hok. unfold organize_lab_output, save_lab_json.
  do 3 eexists. split; [reflexivity|]. split; [reflexivity|].
  unfold load_lab. rewrite read_json_latest, (PersonalizedLab_roundtrip _ Hok).
  reflexivity.
Qed.

(** X19: a lab generated from the templates, written out by the
    organiser and read back from the simplified file is the lab that was
    generated. *)
Theorem X19_template_lab_survives_saving concept_name concept_definition topic ctx
        output_dir fs :
  exists r files fs' path,
    generate_lab concept_name concept_definition topic ctx = inr r
    /\ organize_lab_output r output_dir concept_name fs = (files, fs')
    /\ saved_path "simplified_file" files = Some path
    /\ load_lab path fs' = Some (inr (lab r)).
Proof.
  destruct (template_generate_lab_spec concept_name concept_definition topic ctx)
    as (r & Hr & _ & _ & Hok & _).
  destruct (organize_then_load r output_dir concept_name fs Hok)
    as (files & fs' & path & Hrun & Hpath & Hload).
  exists r, files, fs', path. auto.
Qed.

Lemma count_where_cons {A : Type} (p : A -> bool) a l :
  count_where p (a :: l) = ((if p a then 1 else 0) + count_where p l)%Z.
Proof.
  unfold count_where; cbn [filter]. destruct (p a); cbn [List.length]; lia.
Qed.

Lemma count_where_split {A : Type} (p : A -> bool) l :
  (count_where p l + count_where (fun a => negb (p a)) l
   = Z.of_nat (List.length l))%Z.
Proof.
  induction l as [|a l IH]; [reflexivity|].
  rewrite !count_where_cons. cbn [List.length]. destruct (p a); cbn [negb]; lia.
Qed.





(** Every record that the reader returns has the four keys. *)
Lemma concept_entry_keys topic c r :
  concept_entry topic c = inr r -> has_concept_keys r.
Proof.
  unfold concept_entry. intros H. repeat bind_inr H. injection H as <-. reflexivity.
Qed.

Lemma for_concepts_keys topic items : forall acc out,
  for_concepts topic items acc = inr out ->
  Forall has_concept_keys acc -> Forall has_concept_keys out.
Proof.
  induction items as [|c items IH]; simpl; intros acc out H Hacc.
  - injection H as <-. exact Hacc.
  - bind_inr H. apply (IH _ _ H). apply Forall_app. split; [exact Hacc|].
    constructor; [eapply concept_entry_keys; eassumption | constructor].
Qed.

Lemma for_theories_keys items : forall acc out,
  for_theories items acc = inr out ->
  Forall has_concept_keys acc -> Forall has_concept_keys out.
Proof.
  induction items as [|th items IH]; simpl; intros acc out H Hacc.
  - injection H as <-. exact Hacc.
  - repeat bind_inr H. apply (IH _ _ H).
    eapply for_concepts_keys; eassumption.
Qed.

Lemma load_concepts_keys data concepts :
  load_concepts_from_export data = inr concepts -> Forall has_concept_keys concepts.
Proof.
  unfold load_concepts_from_export. intros H. repeat bind_inr H.
  eapply for_theories_keys; [eassumption | constructor].
Qed.

Lemma lab_info_entry r : summary_entry r (JObj (lab_info r)).
Proof.
  exists (lab_info r). unfold lab_info.
  destruct (error r) as [[|c msg]|]; repeat split; reflexivity.
Qed.

(** X20: the summary report is written to generation_summary.json below
    the output directory and touches no other file.  Its total is the
    number of results, its counts of successful and failed labs add up
    to the total, and its list of labs has one entry per result, in
    order, with an error entry exactly for a non-empty error message. *)
Theorem X20_summary_report_contents results output_dir fs :
  exists fs' summary successful failed entries,
    create_summary_report results output_dir fs
    = (path_join output_dir "generation_summary.json", fs')
    /\ read_json (path_join output_dir "generation_summary.json") fs'
       = Some (JObj summary)
    /\ (forall path, path <> path_join output_dir "generation_summary.json" ->
                     read_json path fs' = read_json path fs)
    /\ dict_lookup "total_labs" summary
       = Some (JInt (Z.of_nat (List.length results)))
    /\ dict_lookup "successful" summary = Some (JInt successful)
    /\ dict_lookup "failed" summary = Some (JInt failed)
    /\ (successful + failed = Z.of_nat (List.length results))%Z
    /\ dict_lookup "labs" summary = Some (JArr entries)
    /\ Forall2 summary_entry results entries.
Proof.
  unfold create_summary_report.
  do 5 eexists. split; [reflexivity|].
  split; [apply read_json_latest|].
  split; [intros path Hne; apply read_json_other; congruence|].
  do 3 (split; [reflexivity|]).
  split; [apply count_where_split|].
  split; [reflexivity|].
  induction results as [|r results IH]; constructor; auto using lab_info_entry.
Qed.







Lemma for_theories_not_object items :
  Exists not_an_object items ->
  forall acc, exists e, for_theories items acc = inl e.
Proof.
  induction 1 as [th items Hth | th items _ IH]; intros acc; cbn [for_theories].
  - destruct th; try contradiction; cbn; eauto.
  - destruct (py_get th "topic" (JStr "Unknown")) as [e|topic]; cbn [bind]; [eauto|].
    destruct (py_get th "concepts" (JArr [])) as [e|cs]; cbn [bind]; [eauto|].
    destruct (py_iter cs) as [e|cs_items]; cbn [bind]; [eauto|].
    destruct (for_concepts topic cs_items acc) as [e|acc']; cbn [bind]; [eauto|].
    apply IH.
Qed.

(** X24: the reader gives all or nothing.  An export that is not an
    object is refused with an [AttributeError]; an object without
    theories gives the empty list; and a single theory that is not an
    object makes the whole call raise, whatever the other theories
    hold. *)
Theorem X24_reader_all_or_nothing :
  (forall data, not_an_object data ->
                exists e, load_concepts_from_export data = inl e
                          /\ exc_class e = "AttributeError")
  /\ (forall doc, dict_lookup "theories" doc = None ->
                  load_concepts_from_export (JObj doc) = inr [])
  /\ (forall doc theories,
         dict_lookup "theories" doc = Some (JArr theories) ->
         Exists not_an_object theories ->
         exists e, load_concepts_from_export (JObj doc) = inl e).
Proof.
  split; [|split].
  - intros data H. destruct data; try contradiction; eexists; split; reflexivity.
  - intros doc H. unfold load_concepts_from_export, py_get, dict_get.
    rewrite H. reflexivity.
  - intros doc theories H Hbad.
    unfold load_concepts_from_export, py_get, dict_get. rewrite H.
    cbn [bind ret py_iter]. apply for_theories_not_object, Hbad.
Qed.

(** X23: whenever the reader returns, every record it returns has
    exactly the keys name, definition, topic and text_evidence, in this
    order, whatever the shape of the export. *)
Theorem X23_reader_records_have_four_keys data concepts :
  load_concepts_from_export data = inr concepts ->
  Forall has_concept_keys concepts.
Proof.
  exact (load_concepts_keys data concepts).
Qed.

Lemma X23_reader_records_have_four_keys_witness :
  Forall has_concept_keys
    [ [ ("name", JStr "CAP Theorem");
        ("definition", JStr "Consistency, Availability, Partition tolerance");
        ("topic", JStr "NoSQL Databases");
        ("text_evidence", JStr "as stated in the lecture notes") ] ].
Proof.
  apply (X23_reader_records_have_four_keys sample_export). reflexivity.
Defined.

End DriverFacts.

(** ** The ingestion service *)

Section IngestionFacts.
Import Models Pydantic FileUtils Organizer Summary LabGenerationService.
Import GenerateAllLabs LabIngestionService Invariants Samples Records.

Variable World : Type.
Variable llm_invoke : string -> World -> result string * World.
Variable parser_parse : string -> result json.
Variable model_name : string.
Variable py_format : json -> string.










(** X26: a positive limit keeps the first concepts, as many as the limit
    says or all of them when there are fewer; the limit 0 keeps every
    concept, like no limit at all; a negative limit drops that many
    concepts from the end. *)
Theorem X26_limit_of_the_batch (concepts : list dict) (n : Z) :
  let kept := limit_concepts concepts (Some n) in
  let len := Z.of_nat (List.length concepts) in
  (n = 0 -> kept = concepts)%Z
  /\ (0 < n -> kept = firstn (Z.to_nat n) concepts
               /\ Z.of_nat (List.length kept) = Z.min n len)%Z
  /\ (n < 0 -> kept = firstn (List.length concepts - Z.to_nat (- n)) concepts
               /\ Z.of_nat (List.length kept) = Z.max 0 (len + n))%Z.
Proof.
  cbv zeta. unfold limit_concepts, list_slice_to.
  split; [intros ->; reflexivity|]. split; intros Hn.
  - destruct (Z.eqb_spec n 0); [lia|]. destruct (Z.leb_spec 0 n); [|lia].
    split; [reflexivity|]. rewrite length_firstn. lia.
  - destruct (Z.eqb_spec n 0); [lia|]. destruct (Z.leb_spec 0 n); [lia|].
    replace (Z.to_nat (Z.of_nat (List.length concepts) + n))
      with (List.length concepts - Z.to_nat (- n))%nat by lia.
    split; [reflexivity|]. rewrite length_firstn. lia.
Qed.

Lemma find_concept_skips wanted before : forall rest,
  Forall (other_name wanted) before ->
  find_concept (before ++ rest) wanted = find_concept rest wanted.
Proof.
  induction before as [|c before IH]; intros rest H; [reflexivity|].
  inversion H as [|? ? (n & Hn & Hne) Hrest]; subst.
  cbn [app find_concept]. unfold py_getitem. rewrite Hn. cbn [bind ret].
  destruct (String.eqb_spec (PyStr.lower n) (PyStr.lower wanted)); [contradiction|].
  exact (IH rest Hrest).
Qed.

(** X27: the search of the single mode returns the first record whose
    name equals the wanted name when case is ignored, and nothing when
    every record has another name. *)
Theorem X27_single_mode_search wanted before :
  Forall (other_name wanted) before ->
  find_concept before wanted = inr None
  /\ (forall c after, same_name wanted c ->
                      find_concept (before ++ c :: after) wanted = inr (Some c)).
Proof.
  intros Hbefore. split.
  - rewrite <- (app_nil_r before). rewrite (find_concept_skips wanted before [] Hbefore).
    reflexivity.
  - intros c after (n & Hn & Heq).
    rewrite (find_concept_skips wanted before (c :: after) Hbefore).
    cbn [find_concept]. unfold py_getitem. rewrite Hn. cbn [bind ret].
    rewrite Heq, String.eqb_refl. reflexivity.
Qed.

(** X28: the single mode without a concept name, or with the empty one,
    does nothing, not even read the export; with a name that no record
    of the export bears it calls no service and writes no file. *)
Theorem X28_single_mode_without_match data output_dir ctx (s : Session World) fs :
  single_mode llm_invoke parser_parse model_name py_format
              data None output_dir ctx s fs = inr (None, s, fs)
  /\ single_mode llm_invoke parser_parse model_name py_format
                 data (Some EmptyString) output_dir ctx s fs = inr (None, s, fs)
  /\ (forall concepts wanted,
         wanted <> EmptyString ->
         load_concepts_from_export data = inr concepts ->
         Forall (other_name wanted) concepts ->
         single_mode llm_invoke parser_parse model_name py_format
                     data (Some wanted) output_dir ctx s fs = inr (None, s, fs)).
Proof.
  split; [reflexivity|]. split; [reflexivity|].
  intros concepts wanted Hw Hload Hall. unfold single_mode.
  destruct wanted as [|a w]; [contradiction|]. cbn [PyStr.truthy].
  rewrite Hload. cbn [bind].
  rewrite <- (app_nil_r concepts), (find_concept_skips _ concepts [] Hall).
  reflexivity.
Qed.

(** X29: for a concept given by three strings [generate_single_lab]
    reports a generated lab, whether the service succeeded or not: the
    reported success is that of the result, the service has been called
    once, and the simplified file that was saved reads back as the lab
    of the result. *)
Theorem X29_single_lab_is_saved name definition topic output_dir ctx
        (s : Session World) fs :
  exists saved r s' fs' path,
    generate_single_lab llm_invoke parser_parse model_name py_format
                        (JStr name) (JStr definition) (JStr topic)
                        output_dir ctx s fs
    = (Generated (success r) (JStr name) (JStr topic) saved r, s', fs')
    /\ prompts_sent s'
       = (prompts_sent s ++ [_create_lab_prompt name definition topic ctx])%list
    /\ saved_path "simplified_file" saved = Some path
    /\ load_lab path fs' = Some (inr (lab r)).
Proof.
  unfold generate_single_lab. cbn [generate_lab_from].
  destruct (service_generate_lab_spec World llm_invoke parser_parse model_name
              name definition topic ctx s)
    as (r & s' & -> & Hsent & Hok & _).
  destruct (organize_then_load r output_dir name fs Hok)
    as (saved & fs' & path & -> & Hpath & Hload).
  exists saved, r, s', fs', path. auto.
Qed.

End IngestionFacts.

Section IngestionWitnesses.
Import Models Pydantic FileUtils Organizer Summary LabGenerationService.
Import GenerateAllLabs LabIngestionService Invariants Samples Records.


Lemma X27_single_mode_search_witness :
  find_concept [ [ ("name", JStr "Sharding"); ("definition", JStr "Horizontal partitioning") ] ]
               "cap theorem" = inr None
  /\ (forall c after,
         same_name "cap theorem" c ->
         find_concept
           ([ [ ("name", JStr "Sharding"); ("definition", JStr "Horizontal partitioning") ] ]
            ++ c :: after) "cap theorem" = inr (Some c)).
Proof.
  apply X27_single_mode_search.
  repeat constructor. exists "Sharding". split; [reflexivity | discriminate].
Defined.

End IngestionWitnesses.
